(** * NUST Shuttles: the live shuttle state and selection engine

    A shallow embedding of the algorithmic core of the web application:

    - [src/services/firebase.js]: the feed listener of [subscribeToShuttles]
      (normalisation of raw entries) and the classifier [isShuttleActive];
    - the hook [useShuttles] (imported as [./hooks/useShuttles]): its
      state, its feed callback and the route extractor [formatRoutePath];
    - [src/App.jsx]: [calculateDistance], [handleShuttleSelect] and
      [handleFindNearest];
    - the map components: [handleMapClick] of [MapView] and the guard of
      [RoutePolyline] that refuses paths shorter than two points.

    JavaScript values are modelled as they are at run time: Numbers are
    IEEE-754 binary64 floats (Rocq's primitive [float]), objects are finite
    maps from property names to values, arrays are lists.  A string is a
    sequence of code units below 256 (Latin-1), which covers every literal
    the program compares against.  React state is a record, and a handler
    is a function from the state it reads to the state its setters leave
    (the setters of one handler are applied together). *)

From Stdlib Require Import ZArith List String Ascii Bool Lia Floats.
From Stdlib Require DecimalString.
From stdpp Require Import gmap strings.

Set Warnings "-inexact-float,-register-all".
Local Open Scope string_scope.
Local Open Scope list_scope.
Local Open Scope Z_scope.

(** ** JavaScript values and the built-ins the program calls *)

Module Js.

(** A value as [snapshot.val()] of the realtime database delivers it (JSON:
    no functions, no symbols), plus [undefined] for absent properties. *)
Inductive JsVal : Type :=
  | VUndefined
  | VNull
  | VBool (b : bool)
  | VNum (x : float)
  | VStr (s : string)
  | VArr (l : list JsVal)
  | VObj (o : gmap string JsVal).

(** Abrupt completion: the only exception the modelled code can raise is a
    [TypeError] (a property read on [null]/[undefined], a call of a
    non-function). *)
Inductive Completion (A : Type) : Type :=
  | Normal (a : A)
  | Throw (e : string).
Arguments Normal {A} a.
Arguments Throw {A} e.

Definition bind {A B} (c : Completion A) (k : A -> Completion B) : Completion B :=
  match c with
  | Normal a => k a
  | Throw e => Throw e
  end.

Fixpoint mapM {A B} (f : A -> Completion B) (l : list A) : Completion (list B) :=
  match l with
  | [] => Normal []
  | x :: r => bind (f x) (fun y => bind (mapM f r) (fun ys => Normal (y :: ys)))
  end.

(** *** Numbers *)

Definition NaN : float := nan.
Definition Infinity : float := infinity.

(** [ToBoolean] on a Number: [+0], [-0] and [NaN] are falsy. *)
Definition truthyNum (x : float) : bool := negb (is_zero x || is_nan x).

(** [ToBoolean]. *)
Definition truthy (v : JsVal) : bool :=
  match v with
  | VUndefined | VNull => false
  | VBool b => b
  | VNum x => truthyNum x
  | VStr s => negb (String.eqb s "")
  | VArr _ | VObj _ => true
  end.

(** [a || b] and [a && b] on values. *)
Definition or_ (a b : JsVal) : JsVal := if truthy a then a else b.
Definition and_ (a b : JsVal) : JsVal := if truthy a then b else a.

(** [x || 0] where [x] is a Number. *)
Definition orZero (x : float) : float := if truthyNum x then x else zero.

(** Property read [v.k] for a key that is neither an array index nor
    ["length"], on a value that is not [null]/[undefined] (the source guards
    those reads with [v && ...], or reads from an object it has just
    built).  A JSON value has no such property unless it is an object that
    holds it. *)
Definition get (v : JsVal) (k : string) : JsVal :=
  match v with
  | VObj o => default VUndefined (o !! k)
  | _ => VUndefined
  end.

Definition isNullish (v : JsVal) : bool :=
  match v with
  | VUndefined | VNull => true
  | _ => false
  end.

Definition Array_isArray (v : JsVal) : bool :=
  match v with
  | VArr _ => true
  | _ => false
  end.

(** *** Strings *)

Definition code (c : ascii) : Z := Z.of_N (N_of_ascii c).
Definition unit_of (n : Z) : ascii := ascii_of_N (Z.to_N n).

(** [String.prototype.toLowerCase] on code units below 256: A-Z and the
    Latin-1 capitals (all of U+00C0-U+00DE but the multiplication sign). *)
Definition lowerUnit (c : ascii) : ascii :=
  let n := code c in
  if ((65 <=? n) && (n <=? 90)) || ((192 <=? n) && (n <=? 222) && negb (n =? 215))
  then unit_of (n + 32) else c.

Fixpoint toLowerCase (s : string) : string :=
  match s with
  | EmptyString => EmptyString
  | String c r => String (lowerUnit c) (toLowerCase r)
  end.

(** [StrWhiteSpaceChar] below 256: TAB, LF, VT, FF, CR, SP, NBSP. *)
Definition isStrWhiteSpaceChar (c : ascii) : bool :=
  let n := code c in
  ((9 <=? n) && (n <=? 13)) || (n =? 32) || (n =? 160).

Fixpoint trimStart (s : string) : string :=
  match s with
  | String c r => if isStrWhiteSpaceChar c then trimStart r else s
  | EmptyString => EmptyString
  end.

Definition isDigit (c : ascii) : bool := (48 <=? code c) && (code c <=? 57).

(** The longest run of decimal digits at the head of [s]: the integer it
    denotes on top of [acc], the number of digits read, and the rest. *)
Fixpoint readDigits (s : string) (acc : Z) (cnt : Z) : Z * Z * string :=
  match s with
  | String c r =>
      if isDigit c then readDigits r (10 * acc + (code c - 48)) (cnt + 1)
      else (acc, cnt, s)
  | EmptyString => (acc, cnt, s)
  end.

(** An optional sign: [true] for a minus. *)
Definition readSign (s : string) : bool * string :=
  match s with
  | String "-" r => (true, r)
  | String "+" r => (false, r)
  | _ => (false, s)
  end.

(** *** Decimal text to Number and back *)

(** The Number nearest to [m * 10^e] (ties to even), for [m >= 0]: exact
    integer arithmetic followed by one rounding.  Exponents so large or so
    small that the result is certainly infinite or zero are cut short. *)
Definition decToSF (neg : bool) (m e : Z) : spec_float :=
  match m with
  | Zpos p =>
      if 400 <? e then S754_infinity neg
      else if e <? - 400 - Z.log2_up m then S754_zero neg
      else if 0 <=? e then
        binary_normalize prec emax (if neg then - (m * 10 ^ e) else m * 10 ^ e) 0 neg
      else
        let '(q, e', l) := SFdiv_core_binary prec emax m 0 (10 ^ (- e)) 0 in
        binary_round_aux prec emax neg q e' l
  | _ => S754_zero neg
  end.

Definition decToNumber (neg : bool) (m e : Z) : float := SF2Prim (decToSF neg m e).

(** [StrUnsignedDecimalLiteral] at the head of [s]: [Infinity], or digits
    with an optional fraction and an optional exponent; an exponent mark
    without digits is not part of the literal. *)
Definition parseUnsignedDecimal (neg : bool) (s : string) : float :=
  if String.prefix "Infinity" s then (if neg then neg_infinity else infinity)
  else
    let '(ip, ni, r1) := readDigits s 0 0 in
    let '(m, nf, r2) :=
      match r1 with
      | String "." r => readDigits r ip 0
      | _ => (ip, 0, r1)
      end in
    if ni + nf =? 0 then nan
    else
      let ex :=
        match r2 with
        | String c r3 =>
            if Ascii.eqb c "e" || Ascii.eqb c "E" then
              let '(eneg, r4) := readSign r3 in
              let '(ev, ne, _) := readDigits r4 0 0 in
              if ne =? 0 then 0 else if eneg then - ev else ev
            else 0
        | EmptyString => 0
        end in
      decToNumber neg m (ex - nf).

(** [parseFloat] on a string: leading white space is skipped, the longest
    prefix that is a [StrDecimalLiteral] is converted, [NaN] if there is
    none. *)
Definition parseFloatString (s : string) : float :=
  let '(neg, r) := readSign (trimStart s) in
  parseUnsignedDecimal neg r.

(** [parseInt(s, 10)] on a string: the mathematical integer denoted by the
    sign and the longest prefix of decimal digits, [None] for [NaN]. *)
Definition parseIntString (s : string) : option Z :=
  let '(neg, r) := readSign (trimStart s) in
  let '(v, n, _) := readDigits r 0 0 in
  if n =? 0 then None else Some (if neg then - v else v).

(** [Number::toString] (radix 10).  For a finite non-zero [x] of absolute
    value [m * 2^e], ECMA-262 asks for integers [n], [k], [s] with [k] as
    small as possible, [10^(k-1) <= s < 10^k] and [s * 10^(n-k)] rounding
    to [x]; among several [s], the one nearest to [x] (an even one on a tie),
    as every engine chooses. *)
Definition floorDivPow10 (m e p : Z) : Z :=
  (m * 2 ^ Z.max e 0 * 10 ^ Z.max (- p) 0) / (2 ^ Z.max (- e) 0 * 10 ^ Z.max p 0).

(** Compares [2 * (m * 2^e)] with [a * 10^p]. *)
Definition compareTwice (m e a p : Z) : comparison :=
  (2 * m * 2 ^ Z.max e 0 * 10 ^ Z.max (- p) 0 ?= a * 10 ^ Z.max p 0 * 2 ^ Z.max (- e) 0).

(** The least [n' >= n] with [m * 2^e < 10^n']. *)
Fixpoint magnitude (fuel : nat) (m e n : Z) : Z :=
  match fuel with
  | O => n
  | S f => if floorDivPow10 m e n =? 0 then n else magnitude f m e (n + 1)
  end.

Definition roundTrips (x : float) (s p : Z) : bool :=
  (decToNumber false s p =? x)%float.

(** The digits [s] and the exponent [p] of the shortest decimal that rounds
    to [x], trying [k], [k+1], ... digits. *)
Fixpoint shortestDecimal (fuel : nat) (x : float) (m e n k : Z) {struct fuel} : Z * Z :=
  let p := n - k in
  let lo := floorDivPow10 m e p in
  let hi := lo + 1 in
  match roundTrips x lo p, roundTrips x hi p with
  | true, true =>
      match compareTwice m e (lo + hi) p with
      | Lt => (lo, p)
      | Gt => (hi, p)
      | Eq => (if Z.even lo then lo else hi, p)
      end
  | true, false => (lo, p)
  | false, true => (hi, p)
  | false, false =>
      match fuel with
      | O => (lo, p)
      | S f => shortestDecimal f x m e n (k + 1)
      end
  end.

Fixpoint stripZeros (fuel : nat) (s p : Z) : Z * Z :=
  match fuel with
  | O => (s, p)
  | S f => if (0 <? s) && (s mod 10 =? 0) then stripZeros f (s / 10) (p + 1) else (s, p)
  end.

Definition digitsOf (n : Z) : string :=
  if n =? 0 then "0"
  else DecimalString.NilEmpty.string_of_uint (N.to_uint (Z.to_N n)).

Fixpoint zeros (n : nat) : string :=
  match n with
  | O => ""
  | S k => String "0" (zeros k)
  end.

Definition formatDecimal (ds : string) (n : Z) : string :=
  let k := Z.of_nat (String.length ds) in
  if (k <=? n) && (n <=? 21) then ds +:+ zeros (Z.to_nat (n - k))
  else if (0 <? n) && (n <=? 21) then
    substring 0 (Z.to_nat n) ds +:+ "." +:+ substring (Z.to_nat n) (Z.to_nat (k - n)) ds
  else if (- 6 <? n) && (n <=? 0) then "0." +:+ zeros (Z.to_nat (- n)) +:+ ds
  else
    let e := n - 1 in
    let es := (if e <? 0 then "-" else "+") +:+ digitsOf (Z.abs e) in
    if k =? 1 then ds +:+ "e" +:+ es
    else substring 0 1 ds +:+ "." +:+ substring 1 (Z.to_nat (k - 1)) ds +:+ "e" +:+ es.

Definition Number_toString (x : float) : string :=
  if is_nan x then "NaN"
  else if is_zero x then "0"
  else
    let sign := if (x <? zero)%float then "-" else "" in
    let a := abs x in
    match Prim2SF a with
    | S754_finite _ m e =>
        let n0 := magnitude 8 (Zpos m) e ((Z.log2 (Zpos m) + e) * 30103 / 100000) in
        let '(s0, p0) := shortestDecimal 17 a (Zpos m) e n0 1 in
        let '(s, p) := stripZeros 20 s0 p0 in
        let ds := digitsOf s in
        sign +:+ formatDecimal ds (p + Z.of_nat (String.length ds))
    | _ => sign +:+ "Infinity"
    end.

(** [ToString]; an array joins the strings of its elements with commas,
    [null] and [undefined] elements giving the empty string.  (Objects are
    JSON data: none carries a [toString] or [valueOf] function.) *)
Fixpoint ToString (v : JsVal) : string :=
  match v with
  | VUndefined => "undefined"
  | VNull => "null"
  | VBool b => if b then "true" else "false"
  | VNum x => Number_toString x
  | VStr s => s
  | VArr l =>
      (fix join (l : list JsVal) : string :=
         match l with
         | [] => ""
         | a :: r =>
             let sa := if isNullish a then "" else ToString a in
             match r with
             | [] => sa
             | _ => sa +:+ "," +:+ join r
             end
         end) l
  | VObj _ => "[object Object]"
  end.

(** [parseFloat(v)] is [parseFloat] of [ToString(v)].  On a Number the two
    steps undo each other: [Number::toString] yields a decimal literal that
    reads back as the same Number (ECMA-262, 6.1.6.1.20, note 1), except
    that [-0] prints as ["0"]. *)
Definition parseFloat (v : JsVal) : float :=
  match v with
  | VNum x => if is_zero x then zero else x
  | _ => parseFloatString (ToString v)
  end.

(** [parseInt(v, 10)]. *)
Definition parseInt (v : JsVal) : option Z := parseIntString (ToString v).

(** Own enumerable properties, as [Object.entries] and object spread see
    them: the fields of an object, the elements of an array and the code
    units of a string under their indices, nothing for other primitives.
    An object is modelled as a finite map, which records which fields an
    object has and not the order in which they were created, so the order
    in which [Object.entries] lists the fields of an object (integer-like
    keys first, the others in creation order) is not represented:
    [map_to_list] lists every field exactly once, in an order of its own
    that need not be the one of [Object.entries].  What is stated of the
    entries of an object below is stated of their number and of their
    membership, never of their positions.  The elements of an array and
    the code units of a string are listed in index order, as in the
    source. *)
Fixpoint indexed {A} (i : nat) (l : list A) : list (string * A) :=
  match l with
  | [] => []
  | a :: r => (digitsOf (Z.of_nat i), a) :: indexed (S i) r
  end.

Fixpoint units (s : string) : list JsVal :=
  match s with
  | EmptyString => []
  | String c r => VStr (String c EmptyString) :: units r
  end.

Definition Object_entries (v : JsVal) : list (string * JsVal) :=
  match v with
  | VObj o => map_to_list o
  | VArr l => indexed 0 l
  | VStr s => indexed 0 (units s)
  | _ => []
  end.

Definition spread (v : JsVal) : gmap string JsVal :=
  match v with
  | VObj o => o
  | _ => list_to_map (Object_entries v)
  end.

End Js.

Import Js.

(** A JavaScript object: its own properties by name. *)
Abbreviation Obj := (gmap string JsVal).

(** [o.k] on an object. *)
Definition prop (o : Obj) (k : string) : JsVal := default VUndefined (o !! k).

(** ** [src/services/firebase.js] *)

Module Firebase.

(** The callback mapped over [Object.entries(data)]:
<<
    ([id, shuttle]) => ({
      id,
      ...shuttle,
      latitude: parseFloat(shuttle.latitude) || 0,
      longitude: parseFloat(shuttle.logitude) || 0,  // Note: typo in original data
      prevLat: parseFloat(shuttle.prevLat) || 0,
      prevLong: parseFloat(shuttle.prevLong) || 0,
      speed: parseFloat(shuttle.speed) || 0
    })
>>
    Later properties of the literal overwrite earlier ones of the same name:
    the spread may replace [id], and the five parsed fields replace whatever
    the entry held under those names.  Reading [shuttle.latitude] throws on
    [null] and [undefined]. *)
Definition normalizeEntry (entry : string * JsVal) : Completion Obj :=
  let '(id, shuttle) := entry in
  if isNullish shuttle then Throw "TypeError: cannot read properties of null"
  else
    Normal
      (<["speed" := VNum (orZero (parseFloat (get shuttle "speed")))]>
      (<["prevLong" := VNum (orZero (parseFloat (get shuttle "prevLong")))]>
      (<["prevLat" := VNum (orZero (parseFloat (get shuttle "prevLat")))]>
      (<["longitude" := VNum (orZero (parseFloat (get shuttle "logitude")))]>
      (<["latitude" := VNum (orZero (parseFloat (get shuttle "latitude")))]>
      (spread shuttle ∪ {["id" := VStr id]})))))).

(** What the database listener is told: a new value of the root, or the
    cancellation of the subscription with an error. *)
Inductive FeedEvent : Type :=
  | Value (data : JsVal)
  | Cancelled (error : string).

(** [subscribeToShuttles(callback)]: the two listeners handed to [onValue],
    as the reaction to one feed event.  [callback] is the subscriber's
    state transformer.
<<
    onValue(shuttlesRef, (snapshot) => {
      const data = snapshot.val();
      if (data) { ... callback(shuttlesArray); } else { callback([]); }
    }, (error) => {
      console.error('Firebase error:', error);
      callback([]);
    });
>> *)
Definition subscribeToShuttles {S : Type}
    (callback : list Obj -> S -> Completion S) (ev : FeedEvent) (st : S) : Completion S :=
  match ev with
  | Value data =>
      if truthy data then
        bind (mapM normalizeEntry (Object_entries data))
             (fun shuttlesArray => callback shuttlesArray st)
      else callback [] st
  | Cancelled error => callback [] st
  end.

Definition fiveMinutes : Z := 5 * 60 * 1000.

(** The time value of [new Date(t)]: [TimeClip] makes a time beyond
    8.64e15 ms from the epoch an invalid date, whose value is [NaN]. *)
Definition TimeClip (t : Z) : option Z :=
  if Z.abs t <=? 8640000000000000 then Some t else None.

(** [(now - lastActive) < fiveMinutes], with [now] the time value of
    [new Date()].  A comparison with [NaN] is false.  Time values are
    integers of magnitude at most 8.64e15 < 2^53, for which the Number
    subtraction and comparison agree with the integer ones; rounding
    [timestamp] to a Number moves no integer across the 8.64e15 bound. *)
Definition withinFiveMinutes (now timestamp : Z) : bool :=
  match TimeClip timestamp with
  | Some lastActive => now - lastActive <? fiveMinutes
  | None => false
  end.

(** [v !== '0'] *)
Definition notStringZero (v : JsVal) : bool :=
  match v with
  | VStr s => negb (String.eqb s "0")
  | _ => true
  end.

(** [isShuttleActive(shuttle)], at clock reading [now].
<<
    if (shuttle.activeStatus) {
      const status = shuttle.activeStatus.toLowerCase();
      if (status === 'active' || status === 'true' || status === '1') return true;
    }
    if (shuttle.lastActiveTime && shuttle.lastActiveTime !== '0') {
      const timestamp = parseInt(shuttle.lastActiveTime, 10);
      if (!isNaN(timestamp)) { ... return (now - lastActive) < fiveMinutes; }
    }
    return false;
>>
    Only strings have a [toLowerCase] method: on any other truthy
    [activeStatus] the call throws. *)
Definition isShuttleActive (now : Z) (shuttle : Obj) : Completion bool :=
  bind
    (let activeStatus := prop shuttle "activeStatus" in
     if truthy activeStatus then
       match activeStatus with
       | VStr s =>
           let status := toLowerCase s in
           Normal (String.eqb status "active" || String.eqb status "true"
                   || String.eqb status "1")
       | _ => Throw "TypeError: shuttle.activeStatus.toLowerCase is not a function"
       end
     else Normal false)
    (fun byStatus =>
       if byStatus then Normal true
       else
         let lastActiveTime := prop shuttle "lastActiveTime" in
         if truthy lastActiveTime && notStringZero lastActiveTime then
           match parseInt lastActiveTime with
           | Some timestamp => Normal (withinFiveMinutes now timestamp)
           | None => Normal false
           end
         else Normal false).

End Firebase.

(** ** [src/hooks/useShuttles.js] *)

Module UseShuttles.

(** The filter and the map of [formatRoutePath]:
<<
    .filter(point => point && (point.lat || point.latitude) && (point.lng || point.longitude))
    .map(point => [
      parseFloat(point.lat || point.latitude),
      parseFloat(point.lng || point.longitude)
    ])
>> *)
Definition latOf (point : JsVal) : JsVal := or_ (get point "lat") (get point "latitude").
Definition lngOf (point : JsVal) : JsVal := or_ (get point "lng") (get point "longitude").

Definition usablePoint (point : JsVal) : bool :=
  truthy (and_ (and_ point (latOf point)) (lngOf point)).

Definition pointPair (point : JsVal) : float * float :=
  (parseFloat (latOf point), parseFloat (lngOf point)).

(** [segment && segment.path && Array.isArray(segment.path)] *)
Definition hasPath (segment : JsVal) : bool :=
  truthy (and_ segment (get segment "path")) && Array_isArray (get segment "path").

(** The [for (const segment of route)] loop: it returns at the first
    segment whose [path] is an array. *)
Fixpoint firstPath (segments : list JsVal) : list (float * float) :=
  match segments with
  | [] => []
  | segment :: rest =>
      if hasPath segment then
        match get segment "path" with
        | VArr path => map pointPair (List.filter usablePoint path)
        | _ => []
        end
      else firstPath rest
  end.

(** [formatRoutePath(route)] *)
Definition formatRoutePath (route : JsVal) : list (float * float) :=
  if negb (truthy route) || negb (Array_isArray route) then []
  else
    match route with
    | VArr segments => firstPath segments
    | _ => []
    end.

(** A route path as the array of [[lat, lng]] arrays stored in a shuttle. *)
Definition pathValue (path : list (float * float)) : JsVal :=
  VArr (map (fun p => VArr [VNum (fst p); VNum (snd p)]) path).

(** The [data.map] callback of the hook:
    [{ ...shuttle, isActive: isShuttleActive(shuttle),
       routePath: formatRoutePath(shuttle.route) }]. *)
Definition processShuttle (now : Z) (shuttle : Obj) : Completion Obj :=
  bind (Firebase.isShuttleActive now shuttle) (fun active =>
    Normal (<["routePath" := pathValue (formatRoutePath (prop shuttle "route"))]>
           (<["isActive" := VBool active]> shuttle))).

(** The four [useState] cells of the hook. *)
Record HookState : Type := {
  shuttles : list Obj;
  loading : bool;
  error : option string;
  lastUpdated : option Z
}.

Definition initialState : HookState :=
  {| shuttles := []; loading := true; error := None; lastUpdated := None |}.

(** The callback the hook subscribes with; [now] is the clock reading of
    the push.
<<
    setShuttles(processedShuttles);
    setLoading(false);
    setLastUpdated(new Date());
    setError(null);
>> *)
Definition onData (now : Z) (data : list Obj) (st : HookState) : Completion HookState :=
  bind (mapM (processShuttle now) data) (fun processedShuttles =>
    Normal {| shuttles := processedShuttles; loading := false;
              error := None; lastUpdated := Some now |}).

(** One feed event delivered to the mounted hook.  An exception escapes the
    listener before any setter has run, so the state stays as it was. *)
Definition deliver (now : Z) (ev : Firebase.FeedEvent) (st : HookState) : HookState :=
  match Firebase.subscribeToShuttles (onData now) ev st with
  | Normal st' => st'
  | Throw _ => st
  end.

(** The hook's state after a sequence of timed feed events. *)
Definition run (events : list (Z * Firebase.FeedEvent)) : HookState :=
  fold_left (fun st e => deliver (fst e) (snd e) st) events initialState.

(** [activeCount] and [totalCount] of the returned object. *)
Definition activeCount (st : HookState) : nat :=
  length (List.filter (fun s => truthy (prop s "isActive")) (shuttles st)).
Definition totalCount (st : HookState) : nat := length (shuttles st).

End UseShuttles.

(** ** [src/components/Map]: the two guards the claims touch *)

Module MapComponents.

(** [RoutePolyline]: [if (!path || path.length < 2) return null;] *)
Definition RoutePolyline_draws (path : list (float * float)) : bool :=
  negb (Z.of_nat (length path) <? 2).

End MapComponents.

(** ** [src/App.jsx] *)

Module App.

(** The fields [App] reads from a processed shuttle.  The feed listener
    makes [latitude] and [longitude] Numbers that are never [NaN], the hook
    makes [isActive] a boolean, and [id] is the entry's key (a string)
    unless the entry has a property [id] of its own. *)
Record Shuttle : Type := {
  id : string;
  latitude : float;
  longitude : float;
  isActive : bool
}.

(** The view of a processed shuttle object as such a record. *)
Definition viewShuttle (o : Obj) : option Shuttle :=
  match o !! "id", o !! "latitude", o !! "longitude", o !! "isActive" with
  | Some (VStr i), Some (VNum la), Some (VNum lo), Some (VBool a) =>
      Some {| id := i; latitude := la; longitude := lo; isActive := a |}
  | _, _, _, _ => None
  end.

(** [Math.sin], [Math.cos], [Math.sqrt] and [Math.atan2] of the host.
    ECMA-262 leaves their results implementation-approximated, so they are
    an interface; it fixes only special values, of which [EcmaMath] lists
    those used below. *)
Record Math : Type := {
  Math_sin : float -> float;
  Math_cos : float -> float;
  Math_sqrt : float -> float;
  Math_atan2 : float -> float -> float
}.

Class EcmaMath (M : Math) : Prop := {
  sin_infinity : Math_sin M infinity = nan;
  sin_neg_infinity : Math_sin M neg_infinity = nan;
  sqrt_nan : Math_sqrt M nan = nan;
  atan2_nan_l : forall x, Math_atan2 M nan x = nan
}.

(** [Math.PI] *)
Definition Math_PI : float := 0x1.921fb54442d18p+1%float.

(** The three selection cells of [App]; [None] is [null]. *)
Record AppState : Type := {
  selectedShuttleId : option string;
  nearestShuttleId : option string;
  isLocating : bool
}.

Definition initialState : AppState :=
  {| selectedShuttleId := None; nearestShuttleId := None; isLocating := false |}.

(** [shuttleId === selectedShuttleId] on ids that are strings or [null]. *)
Definition sameId (a b : option string) : bool := bool_decide (a = b).

(** [handleShuttleSelect(shuttleId)]
<<
    if (shuttleId === selectedShuttleId) {
      setSelectedShuttleId(null);
      setNearestShuttleId(null);
    } else {
      setSelectedShuttleId(shuttleId);
      if (shuttleId !== nearestShuttleId) { setNearestShuttleId(null); }
    }
>> *)
Definition handleShuttleSelect (shuttleId : option string) (st : AppState) : AppState :=
  if sameId shuttleId (selectedShuttleId st) then
    {| selectedShuttleId := None; nearestShuttleId := None; isLocating := isLocating st |}
  else
    {| selectedShuttleId := shuttleId;
       nearestShuttleId :=
         if negb (sameId shuttleId (nearestShuttleId st)) then None
         else nearestShuttleId st;
       isLocating := isLocating st |}.

(** [MapView]'s [handleMapClick]:
    [if (selectedShuttleId) { onShuttleSelect(null); }].  An id is truthy
    when it is a non-empty string. *)
Definition truthyId (i : option string) : bool :=
  match i with
  | Some s => negb (String.eqb s "")
  | None => false
  end.

Definition handleMapClick (st : AppState) : AppState :=
  if truthyId (selectedShuttleId st) then handleShuttleSelect None st else st.

Section WithMath.

Variable M : Math.

(** [calculateDistance(lat1, lon1, lat2, lon2)]: the haversine formula, in
    the Number arithmetic of the source. *)
Definition calculateDistance (lat1 lon1 lat2 lon2 : float) : float :=
  let R := 6371%float in
  let dLat := ((lat2 - lat1) * Math_PI / 180)%float in
  let dLon := ((lon2 - lon1) * Math_PI / 180)%float in
  let a :=
    (Math_sin M (dLat / 2) * Math_sin M (dLat / 2) +
     Math_cos M (lat1 * Math_PI / 180) * Math_cos M (lat2 * Math_PI / 180) *
     Math_sin M (dLon / 2) * Math_sin M (dLon / 2))%float in
  let c := (2 * Math_atan2 M (Math_sqrt M a) (Math_sqrt M (1 - a)))%float in
  (R * c)%float.

(** [shuttle.latitude && shuttle.longitude] *)
Definition hasPosition (shuttle : Shuttle) : bool :=
  truthyNum (latitude shuttle) && truthyNum (longitude shuttle).

(** The distance from the user to a shuttle. *)
Definition distanceTo (userLat userLng : float) (shuttle : Shuttle) : float :=
  calculateDistance userLat userLng (latitude shuttle) (longitude shuttle).

(** One turn of [activeShuttles.forEach], on the pair
    [(nearestShuttle, minDistance)]. *)
Definition nearestStep (userLat userLng : float)
    (acc : option Shuttle * float) (shuttle : Shuttle) : option Shuttle * float :=
  if hasPosition shuttle then
    let distance := distanceTo userLat userLng shuttle in
    if (distance <? snd acc)%float then (Some shuttle, distance) else acc
  else acc.

(** [let nearestShuttle = null; let minDistance = Infinity;] and the loop. *)
Definition findNearest (userLat userLng : float) (activeShuttles : list Shuttle)
    : option Shuttle * float :=
  fold_left (nearestStep userLat userLng) activeShuttles (None, Infinity).

(** The success callback of [getCurrentPosition], for the position
    [(userLat, userLng)]; [activeShuttles] is the list the handler captured
    when it was called. *)
Definition onPosition (activeShuttles : list Shuttle) (userLat userLng : float)
    (st : AppState) : AppState :=
  match fst (findNearest userLat userLng activeShuttles) with
  | Some nearestShuttle =>
      {| selectedShuttleId := Some (id nearestShuttle);
         nearestShuttleId := Some (id nearestShuttle);
         isLocating := false |}
  | None =>
      {| selectedShuttleId := selectedShuttleId st;
         nearestShuttleId := nearestShuttleId st;
         isLocating := false |}
  end.

End WithMath.

(** The error callback: [setIsLocating(false)] and an alert whose text
    depends on [error.code] (1, 2, 3 are [PERMISSION_DENIED],
    [POSITION_UNAVAILABLE], [TIMEOUT]). *)
Definition onPositionError (code : Z) (st : AppState) : AppState * string :=
  ({| selectedShuttleId := selectedShuttleId st;
      nearestShuttleId := nearestShuttleId st;
      isLocating := false |},
   if code =? 1 then
     "Location access denied. Please allow location access to find the nearest shuttle."
   else if code =? 2 then "Location information is unavailable."
   else if code =? 3 then "Location request timed out."
   else "Unable to get your location").

(** What a call of [handleFindNearest] leaves behind: an alert, or a
    position request that holds the active shuttles of the call. *)
Inductive Outcome : Type :=
  | Alert (message : string)
  | Locating (activeShuttles : list Shuttle).

Definition noActiveShuttles : string := "No active shuttles available".

(** [handleFindNearest()], up to the position request; [geolocation] tells
    whether [navigator.geolocation] exists.
<<
    if (!navigator.geolocation) { alert(...); return; }
    const activeShuttles = shuttles.filter(s => s.isActive);
    if (activeShuttles.length === 0) { alert('No active shuttles available'); return; }
    setIsLocating(true);
    navigator.geolocation.getCurrentPosition(...)
>> *)
Definition handleFindNearest (geolocation : bool) (shuttles : list Shuttle)
    (st : AppState) : AppState * Outcome :=
  if negb geolocation then (st, Alert "Geolocation is not supported by your browser")
  else
    let activeShuttles := List.filter isActive shuttles in
    if Nat.eqb (length activeShuttles) 0 then (st, Alert noActiveShuttles)
    else
      ({| selectedShuttleId := selectedShuttleId st;
          nearestShuttleId := nearestShuttleId st;
          isLocating := true |},
       Locating activeShuttles).

(** The answer of the geolocation provider to one request. *)
Inductive PositionResult : Type :=
  | Position (latitude longitude : float)
  | PositionError (code : Z).

(** A whole search: the call of [handleFindNearest] and the callback that
    answers its request, with the alert shown, if any. *)
Definition findNearestActive (M : Math) (shuttles : list Shuttle)
    (answer : PositionResult) (st : AppState) : AppState * option string :=
  match handleFindNearest true shuttles st with
  | (st1, Alert message) => (st1, Some message)
  | (st1, Locating activeShuttles) =>
      match answer with
      | Position userLat userLng => (onPosition M activeShuttles userLat userLng st1, None)
      | PositionError code =>
          let '(st2, message) := onPositionError code st1 in (st2, Some message)
      end
  end.

(** The events that reach the selection cells: a click on a shuttle (or a
    call with [null]), a click on the map background, a click on "find
    nearest", and the two callbacks of a position request.  A callback
    carries the list its request captured; other events may come between
    the request and its answer. *)
Inductive Event : Type :=
  | Select (shuttleId : option string)
  | MapClick
  | FindNearestClick (geolocation : bool) (shuttles : list Shuttle)
  | PositionFound (activeShuttles : list Shuttle) (userLat userLng : float)
  | PositionFailed (code : Z).

Definition step (M : Math) (st : AppState) (ev : Event) : AppState :=
  match ev with
  | Select shuttleId => handleShuttleSelect shuttleId st
  | MapClick => handleMapClick st
  | FindNearestClick geolocation shuttles => fst (handleFindNearest geolocation shuttles st)
  | PositionFound activeShuttles userLat userLng =>
      onPosition M activeShuttles userLat userLng st
  | PositionFailed code => fst (onPositionError code st)
  end.

Definition run (M : Math) (events : list Event) : AppState :=
  fold_left (step M) events initialState.

(** The candidates of a search: the active shuttles that have a position. *)
Definition candidates (shuttles : list Shuttle) : list Shuttle :=
  List.filter hasPosition (List.filter isActive shuttles).

End App.

(** ** A reference host

    Truncated power series for the four [Math] functions: an
    implementation in the sense of ECMA-262 (approximate results, the
    prescribed special values), close to the true values for arguments of
    a few radians.  It is used to run the definitions on examples; the
    theorems about [App] hold for every host. *)

Module RefMath.

(** [acc + sum of the next n terms], each term being the previous one times
    [- x2 / ((k+1) (k+2))]. *)
Fixpoint series (n : nat) (k term x2 acc : float) : float :=
  match n with
  | O => acc
  | S n' =>
      let term' := (- term * x2 / ((k + 1) * (k + 2)))%float in
      series n' (k + 2)%float term' x2 (acc + term')%float
  end.

Definition sin (x : float) : float :=
  if is_finite x then series 14 1 x (x * x) x else nan.

Definition cos (x : float) : float :=
  if is_finite x then series 14 0 1 (x * x) 1 else nan.

(** [t - t^3/3 + t^5/5 - ...] *)
Fixpoint atanSeries (n : nat) (k pow t2 acc : float) : float :=
  match n with
  | O => acc
  | S n' =>
      let pow' := (- pow * t2)%float in
      atanSeries n' (k + 2)%float pow' t2 (acc + pow' / (k + 2))%float
  end.

(** [atan t = 2 atan (t / (1 + sqrt (1 + t^2)))] *)
Definition halve (t : float) : float := (t / (1 + sqrt (1 + t * t)))%float.

Definition atanPos (t : float) : float :=
  if is_infinity t then (App.Math_PI / 2)%float
  else
    let u := halve (halve (halve t)) in
    (8 * atanSeries 12 1 u (u * u) u)%float.

Definition atan (t : float) : float :=
  if (t <? 0)%float then (- atanPos (- t))%float else atanPos t.

Definition atan2 (y x : float) : float :=
  if is_nan y || is_nan x then nan
  else if (0 <? x)%float then atan (y / x)
  else if (x <? 0)%float then
    (if (y <? 0)%float then atan (y / x) - App.Math_PI else atan (y / x) + App.Math_PI)%float
  else if (0 <? y)%float then (App.Math_PI / 2)%float
  else if (y <? 0)%float then (- (App.Math_PI / 2))%float
  else y.

Definition host : App.Math :=
  {| App.Math_sin := sin; App.Math_cos := cos;
     App.Math_sqrt := PrimFloat.sqrt; App.Math_atan2 := atan2 |}.

End RefMath.

(** ** Properties stated by the specification *)

Module Spec.

(** The invariant of the selection state: [nearestId] is unset or equal to
    [selectedId]. *)
Definition selectionInvariant (st : App.AppState) : Prop :=
  App.nearestShuttleId st = None \/ App.nearestShuttleId st = App.selectedShuttleId st.

(** "[activeStatusRaw] case-insensitively equals [active], [true] or [1]". *)
Definition equalsIgnoreCase (a b : string) : bool :=
  String.eqb (toLowerCase a) (toLowerCase b).

Definition statusSaysActive (activeStatusRaw : JsVal) : bool :=
  match activeStatusRaw with
  | VStr s => equalsIgnoreCase s "active" || equalsIgnoreCase s "true" || equalsIgnoreCase s "1"
  | _ => false
  end.

(** "[lastActiveTime] is present and non-zero and parses as an integer":
    the integer, if so.  Absent and ["0"] mean never observed. *)
Definition lastSeen (shuttle : Obj) : option Z :=
  let lastActiveTime := prop shuttle "lastActiveTime" in
  if truthy lastActiveTime && Firebase.notStringZero lastActiveTime
  then parseInt lastActiveTime else None.

(** The policy of section 4.3, in the specification's words: active by
    status; else active iff the elapsed time is below five minutes (a
    timestamp in the future has a negative elapsed time, hence is active);
    else inactive. *)
Definition isActive (now : Z) (shuttle : Obj) : bool :=
  if statusSaysActive (prop shuttle "activeStatus") then true
  else
    match lastSeen shuttle with
    | Some timestamp => now - timestamp <? Firebase.fiveMinutes
    | None => false
    end.

(** [w] is the first-encountered candidate of minimum distance, among the
    candidates whose distance [d] is a Number below [Infinity]: it is one
    of them, none of them is nearer, and each of them that comes before
    [w] is strictly farther. *)
Definition firstMinimum (d : App.Shuttle -> float) (cands : list App.Shuttle)
    (w : App.Shuttle) : Prop :=
  exists pre post,
    cands = pre ++ w :: post /\
    (d w <? infinity)%float = true /\
    (forall c, In c cands -> (d c <? infinity)%float = true -> (d w <=? d c)%float = true) /\
    (forall c, In c pre -> (d c <? infinity)%float = true -> (d w <? d c)%float = true).

End Spec.

(** ** The invariant of the search loop *)

Module SearchLoop.

(** What the search loop of [handleFindNearest] knows after the candidates
    [seen], for the pair [(nearestShuttle, minDistance)]: either no shuttle
    is held, the bound is still [Infinity] and no distance was below it; or
    the held shuttle is the first one of least distance so far. *)
Definition loopInvariant (d : App.Shuttle -> float) (seen : list App.Shuttle)
    (acc : option App.Shuttle * float) : Prop :=
  match fst acc with
  | None => snd acc = infinity /\ forall c, In c seen -> (d c <? infinity)%float = false
  | Some w =>
      snd acc = d w /\
      exists pre post,
        seen = pre ++ w :: post /\
        (d w <? infinity)%float = true /\
        (forall c, In c seen -> (d c <? d w)%float = false) /\
        (forall c, In c pre -> (d c <? infinity)%float = true -> (d w <? d c)%float = true)
  end.

End SearchLoop.

(** ** The components that consume the shuttles *)

(** Built-ins these components call beyond those of the feed pipeline. *)
Module JsMore.

(** A hexadecimal digit's value. *)
Definition hexValue (c : ascii) : option Z :=
  let n := code c in
  if (48 <=? n) && (n <=? 57) then Some (n - 48)
  else if (97 <=? n) && (n <=? 102) then Some (n - 87)
  else if (65 <=? n) && (n <=? 70) then Some (n - 55)
  else None.

Fixpoint readHexDigits (s : string) (acc : Z) (cnt : Z) : Z * Z :=
  match s with
  | String c r =>
      match hexValue c with
      | Some v => readHexDigits r (16 * acc + v) (cnt + 1)
      | None => (acc, cnt)
      end
  | EmptyString => (acc, cnt)
  end.

(** [parseInt(v)] without a radix, as a Number: after white space and a
    sign, a [0x] or [0X] prefix selects radix 16, otherwise the radix is
    10; the digits denote an integer, converted to the nearest Number;
    [NaN] if there is no digit. *)
Definition parseIntNumber (v : JsVal) : float :=
  let '(neg, r) := readSign (trimStart (ToString v)) in
  let '(value, n) :=
    if String.prefix "0x" r || String.prefix "0X" r
    then readHexDigits (substring 2 (String.length r - 2) r) 0 0
    else let '(value, n, _) := readDigits r 0 0 in (value, n) in
  if n =? 0 then nan else decToNumber neg value 0.

(** [Array.prototype.sort(comparator)].  The sort is stable, and for a
    comparator that orders the elements consistently its result is the one
    stable arrangement in which no element is followed by one the
    comparator puts strictly before it; insertion from the left computes
    that arrangement.  An element goes before [y] when the comparator's
    result is below zero. *)
Fixpoint insertSorted {A} (comparator : A -> A -> float) (x : A) (l : list A) : list A :=
  match l with
  | [] => [x]
  | y :: r =>
      if (comparator x y <? 0)%float then x :: l else y :: insertSorted comparator x r
  end.

Definition Array_sort {A} (comparator : A -> A -> float) (l : list A) : list A :=
  fold_left (fun sorted x => insertSorted comparator x sorted) l [].

(** [Math.floor(diffMs / 60000)] for [diffMs = now - lastActive], [None]
    for [NaN] (an invalid date).  The quotient of the Number arithmetic and
    the integer quotient agree while [diffMs] is below 2^53, and beyond
    that both are so large (or so negative) that every comparison the
    callers make gives the same answer. *)
Definition diffMinutes (now timestamp : Z) : option Z :=
  match Firebase.TimeClip timestamp with
  | Some lastActive => Some ((now - lastActive) / 60000)
  | None => None
  end.

End JsMore.

(** [MapView]: [shuttles.find(s => s.id === selectedShuttleId)]. *)
Module MapView.

Definition selectedShuttle (shuttles : list App.Shuttle)
    (selectedShuttleId : option string) : option App.Shuttle :=
  List.find (fun s => App.sameId (Some (App.id s)) selectedShuttleId) shuttles.

End MapView.

(** [ShuttleMarker] *)
Module ShuttleMarker.

(** [v === 0] *)
Definition isNumberZero (v : JsVal) : bool :=
  match v with
  | VNum x => (x =? 0)%float
  | _ => false
  end.

(** The marker is rendered unless
    [!shuttle.latitude || !shuttle.longitude ||
     shuttle.latitude === 0 || shuttle.longitude === 0]. *)
Definition renders (shuttle : Obj) : bool :=
  negb (negb (truthy (prop shuttle "latitude")) || negb (truthy (prop shuttle "longitude"))
        || isNumberZero (prop shuttle "latitude") || isNumberZero (prop shuttle "longitude")).

(** [formatLastActive()], at clock reading [now]; [toLocaleDateString]
    is the host's rendering of a valid date, an invalid one renders as
    ["Invalid Date"].
<<
    if (!shuttle.lastActiveTime || shuttle.lastActiveTime === '0') return 'Unknown';
    const timestamp = parseInt(shuttle.lastActiveTime, 10);
    if (isNaN(timestamp)) return 'Unknown';
    ...
    if (diffMins < 0) return 'Just now';
    if (diffMins < 1) return 'Just now';
    if (diffMins < 60) return `${diffMins} min ago`;
    const diffHours = Math.floor(diffMins / 60);
    if (diffHours < 24) return `${diffHours} hr ago`;
    const diffDays = Math.floor(diffHours / 24);
    if (diffDays < 7) return `${diffDays} day${diffDays > 1 ? 's' : ''} ago`;
    return lastActive.toLocaleDateString();
>> *)
Definition formatLastActive (toLocaleDateString : Z -> string) (now : Z)
    (shuttle : Obj) : string :=
  let lastActiveTime := prop shuttle "lastActiveTime" in
  if negb (truthy lastActiveTime) || negb (Firebase.notStringZero lastActiveTime)
  then "Unknown"
  else
    match parseInt lastActiveTime with
    | None => "Unknown"
    | Some timestamp =>
        match JsMore.diffMinutes now timestamp with
        | None => "Invalid Date"
        | Some diffMins =>
            if diffMins <? 0 then "Just now"
            else if diffMins <? 1 then "Just now"
            else if diffMins <? 60 then digitsOf diffMins +:+ " min ago"
            else
              let diffHours := diffMins / 60 in
              if diffHours <? 24 then digitsOf diffHours +:+ " hr ago"
              else
                let diffDays := diffHours / 24 in
                if diffDays <? 7 then
                  digitsOf diffDays +:+ " day" +:+ (if 1 <? diffDays then "s" else "")
                  +:+ " ago"
                else toLocaleDateString timestamp
        end
    end.

End ShuttleMarker.

(** [ShuttleCard] *)
Module ShuttleCard.

(** [getLastActiveText()], at clock reading [now].
<<
    if (!shuttle.lastActiveTime || shuttle.lastActiveTime === '0') return '';
    const timestamp = parseInt(shuttle.lastActiveTime, 10);
    if (isNaN(timestamp)) return '';
    ...
    if (diffMins < 0) return 'Active now'; // Handle future timestamps
    if (diffMins < 1) return 'Active now';
    if (diffMins < 60) return `${diffMins}m ago`;
    const diffHours = Math.floor(diffMins / 60);
    if (diffHours < 24) return `${diffHours}h ago`;
    const diffDays = Math.floor(diffHours / 24);
    if (diffDays < 30) return `${diffDays}d ago`;
    return 'Offline';
>>
    With an invalid date every comparison is false and the function falls
    through to ['Offline']. *)
Definition getLastActiveText (now : Z) (shuttle : Obj) : string :=
  let lastActiveTime := prop shuttle "lastActiveTime" in
  if negb (truthy lastActiveTime) || negb (Firebase.notStringZero lastActiveTime)
  then ""
  else
    match parseInt lastActiveTime with
    | None => ""
    | Some timestamp =>
        match JsMore.diffMinutes now timestamp with
        | None => "Offline"
        | Some diffMins =>
            if diffMins <? 0 then "Active now"
            else if diffMins <? 1 then "Active now"
            else if diffMins <? 60 then digitsOf diffMins +:+ "m ago"
            else
              let diffHours := diffMins / 60 in
              if diffHours <? 24 then digitsOf diffHours +:+ "h ago"
              else
                let diffDays := diffHours / 24 in
                if diffDays <? 30 then digitsOf diffDays +:+ "d ago"
                else "Offline"
        end
    end.

(** The card shows [getLastActiveText()] only under [!shuttle.isActive]. *)
Definition lastActiveLine (now : Z) (shuttle : Obj) : option string :=
  if negb (truthy (prop shuttle "isActive")) then Some (getLastActiveText now shuttle)
  else None.

End ShuttleCard.

(** [RoutePolyline]: [path[0]] and [path[path.length - 1]], read after the
    guard; [None] is [undefined]. *)
Module RoutePolyline.

Definition startPoint (path : list (float * float)) : option (float * float) :=
  nth_error path 0.

Definition endPoint (path : list (float * float)) : option (float * float) :=
  if Nat.eqb (length path) 0 then None else nth_error path (length path - 1).

End RoutePolyline.

(** [StatusPanel] *)
Module StatusPanel.

Definition active (shuttle : Obj) : bool := truthy (prop shuttle "isActive").

(** [parseInt(a.busNumber) || 0] *)
Definition busNumberOf (shuttle : Obj) : float :=
  orZero (JsMore.parseIntNumber (prop shuttle "busNumber")).

(** The comparator of the sort:
<<
    if (a.isActive && !b.isActive) return -1;
    if (!a.isActive && b.isActive) return 1;
    const numA = parseInt(a.busNumber) || 0;
    const numB = parseInt(b.busNumber) || 0;
    return numA - numB;
>> *)
Definition compareShuttles (a b : Obj) : float :=
  if active a && negb (active b) then (-1)%float
  else if negb (active a) && active b then 1%float
  else (busNumberOf a - busNumberOf b)%float.

(** [[...shuttles].sort(...)] *)
Definition sortedShuttles (shuttles : list Obj) : list Obj :=
  JsMore.Array_sort compareShuttles shuttles.

Definition activeCount (shuttles : list Obj) : nat :=
  length (List.filter active shuttles).


End StatusPanel.

(** The earlier [App] of [web-app/], before the nearest-shuttle search: one
    cell, [selectedShuttleId]. *)
Module AppV1.

(** [handleShuttleSelect(shuttleId)]
<<
    if (shuttleId === selectedShuttleId) { setSelectedShuttleId(null); }
    else { setSelectedShuttleId(shuttleId); }
>> *)
Definition handleShuttleSelect (shuttleId : option string)
    (selectedShuttleId : option string) : option string :=
  if App.sameId shuttleId selectedShuttleId then None else shuttleId.

End AppV1.

(** * Theorems *)

(** ** The order of Numbers

    [<] on Numbers, read through its specification on [spec_float]: it
    never holds of [NaN], and on the other Numbers it is a strict total
    order in which [+0] and [-0] are equal. *)

Section NumberOrder.

Local Open Scope float_scope.

Local Ltac by_cases_on_order :=
  repeat match goal with
  | |- context [(?a ?= ?b)%Z] => destruct (Z.compare_spec a b)
  | H : context [(?a ?= ?b)%Z] |- _ => destruct (Z.compare_spec a b)
  | |- context [Pos.compare_cont Eq ?a ?b] =>
      change (Pos.compare_cont Eq a b) with (Pos.compare a b);
      destruct (Pos.compare_spec a b)
  | H : context [Pos.compare_cont Eq ?a ?b] |- _ =>
      change (Pos.compare_cont Eq a b) with (Pos.compare a b) in H;
      destruct (Pos.compare_spec a b)
  end;
  simpl in *; try congruence; try lia.

Lemma SFltb_irrefl (x : spec_float) : SFltb x x = false.
Proof.
  unfold SFltb. destruct x as [s|s| |s m e]; simpl; try (destruct s; reflexivity).
  reflexivity. destruct s; by_cases_on_order.
Qed.

Lemma SFltb_trans (x y z : spec_float) :
  SFltb x y = true -> SFltb y z = true -> SFltb x z = true.
Proof.
  unfold SFltb.
  destruct x as [sx|sx| |sx mx ex], y as [sy|sy| |sy my ey], z as [sz|sz| |sz mz ez];
    simpl; try discriminate;
    try destruct sx; try destruct sy; try destruct sz; simpl;
    try discriminate; try reflexivity; intros Hxy Hyz; by_cases_on_order.
Qed.

(** [x < w], not [c < w], and [c] comparable: then [x < c]. *)
Lemma SFltb_below_bound (x w c b : spec_float) :
  SFltb x w = true -> SFltb c w = false -> SFltb c b = true -> SFltb x c = true.
Proof.
  unfold SFltb.
  destruct x as [sx|sx| |sx mx ex], w as [sw|sw| |sw mw ew], c as [sc|sc| |sc mc ec];
    simpl; try discriminate;
    try destruct sx; try destruct sw; try destruct sc; simpl;
    try discriminate; try reflexivity; intros Hxw Hcw Hcb;
    try (destruct b as [sb|sb| |sb mb eb]; simpl in Hcb; discriminate);
    by_cases_on_order.
Qed.

(** Not [c < w] for comparable [c] and [w] means [w <= c]. *)
Lemma SFleb_of_not_ltb (w c b b' : spec_float) :
  SFltb c w = false -> SFltb c b = true -> SFltb w b' = true -> SFleb w c = true.
Proof.
  unfold SFltb, SFleb.
  destruct w as [sw|sw| |sw mw ew], c as [sc|sc| |sc mc ec];
    simpl; try discriminate;
    try destruct sw; try destruct sc; simpl;
    try discriminate; try reflexivity; intros Hcw Hcb Hwb;
    try (destruct b as [sb|sb| |sb mb eb]; simpl in Hcb; discriminate);
    try (destruct b' as [sb|sb| |sb mb eb]; simpl in Hwb; discriminate);
    by_cases_on_order.
Qed.

Lemma ltb_irrefl (x : float) : (x <? x) = false.
Proof. rewrite ltb_spec. apply SFltb_irrefl. Qed.

Lemma ltb_trans (x y z : float) : (x <? y) = true -> (y <? z) = true -> (x <? z) = true.
Proof. rewrite !ltb_spec. apply SFltb_trans. Qed.

Lemma ltb_below_bound (x w c b : float) :
  (x <? w) = true -> (c <? w) = false -> (c <? b) = true -> (x <? c) = true.
Proof. rewrite !ltb_spec. apply SFltb_below_bound. Qed.

Lemma leb_of_not_ltb (w c b b' : float) :
  (c <? w) = false -> (c <? b) = true -> (w <? b') = true -> (w <=? c) = true.
Proof. rewrite !ltb_spec, leb_spec. apply SFleb_of_not_ltb. Qed.

(** [NaN] absorbs an addition. *)
Lemma add_nan_l (y : float) : nan + y = nan.
Proof.
  apply Prim2SF_inj. rewrite add_spec.
  change (Prim2SF nan) with S754_nan. reflexivity.
Qed.

(** A Number below zero is truthy: it is neither a zero nor [NaN]. *)
Lemma ltb_zero_truthy (x : float) : (x <? 0) = true -> truthyNum x = true.
Proof.
  unfold truthyNum, is_zero, is_nan. rewrite ltb_spec, !FloatAxioms.eqb_spec.
  change (Prim2SF 0) with (S754_zero false). change (Prim2SF zero) with (S754_zero false).
  unfold SFltb, SFeqb.
  destruct (Prim2SF x) as [s|s| |s m e]; simpl; try discriminate;
    destruct s; simpl; try discriminate; intros _.
  - reflexivity.
  - rewrite Z.compare_refl.
    change (PosDef.Pos.compare_cont Eq m m) with (Pos.compare m m).
    rewrite Pos.compare_refl. reflexivity.
Qed.

End NumberOrder.

(** ** The nearest-shuttle search of [App] *)

Section NearestSearch.

Variable M : App.Math.
Variables userLat userLng : float.

Local Open Scope float_scope.

Local Abbreviation d := (App.distanceTo M userLat userLng).
Local Abbreviation stepFn := (App.nearestStep M userLat userLng).
Local Abbreviation loopInvariant := (SearchLoop.loopInvariant d).

(** The loop skips the shuttles without a position: it is the loop over
    the candidates. *)
Lemma findNearest_skips_no_position (act : list App.Shuttle) acc :
  fold_left stepFn act acc = fold_left stepFn (List.filter App.hasPosition act) acc.
Proof.
  revert acc. induction act as [|s act IH]; intros acc; simpl; [reflexivity|].
  destruct (App.hasPosition s) eqn:Hs; simpl.
  - apply IH.
  - unfold App.nearestStep at 2. rewrite Hs. apply IH.
Qed.

Lemma loopInvariant_step (seen : list App.Shuttle) acc (s : App.Shuttle) :
  App.hasPosition s = true ->
  loopInvariant seen acc -> loopInvariant (seen ++ [s]) (stepFn acc s).
Proof.
  intros Hs Hinv. unfold App.nearestStep. rewrite Hs.
  destruct acc as [best m]. unfold SearchLoop.loopInvariant in *. simpl in *.
  destruct (d s <? m) eqn:Hlt; simpl.
  - (* the new shuttle is strictly nearer: it becomes the held one *)
    split; [reflexivity|]. exists seen, []. split; [reflexivity|].
    destruct best as [w|].
    + destruct Hinv as [-> (pre & post & Hseen & Hfin & Hmin & Hfirst)].
      split; [exact (ltb_trans _ _ _ Hlt Hfin)|]. split.
      * intros c Hc. apply in_app_or in Hc. destruct Hc as [Hc|[<-|[]]].
        -- destruct (d c <? d s) eqn:Hcs; [|reflexivity].
           rewrite <- (Hmin c Hc). symmetry. exact (ltb_trans _ _ _ Hcs Hlt).
        -- apply ltb_irrefl.
      * intros c Hc Hcfin. apply (ltb_below_bound _ (d w) _ infinity); auto.
    + destruct Hinv as [-> Hnone].
      split; [exact Hlt|]. split.
      * intros c Hc. apply in_app_or in Hc. destruct Hc as [Hc|[<-|[]]].
        -- destruct (d c <? d s) eqn:Hcs; [|reflexivity].
           rewrite <- (Hnone c Hc). symmetry. exact (ltb_trans _ _ _ Hcs Hlt).
        -- apply ltb_irrefl.
      * intros c Hc Hcfin. rewrite (Hnone c Hc) in Hcfin. discriminate.
  - (* the held shuttle stays *)
    destruct best as [w|].
    + destruct Hinv as [-> (pre & post & Hseen & Hfin & Hmin & Hfirst)].
      split; [reflexivity|]. exists pre, (post ++ [s]). split.
      * rewrite Hseen, <- app_assoc. reflexivity.
      * split; [exact Hfin|]. split; [|exact Hfirst].
        intros c Hc. apply in_app_or in Hc. destruct Hc as [Hc|[<-|[]]]; auto.
    + destruct Hinv as [-> Hnone]. split; [reflexivity|].
      intros c Hc. apply in_app_or in Hc. destruct Hc as [Hc|[<-|[]]]; auto.
Qed.

Lemma loopInvariant_fold (l seen : list App.Shuttle) acc :
  Forall (fun s => App.hasPosition s = true) l ->
  loopInvariant seen acc -> loopInvariant (seen ++ l) (fold_left stepFn l acc).
Proof.
  revert seen acc. induction l as [|s l IH]; intros seen acc Hl Hinv; simpl.
  - rewrite app_nil_r. exact Hinv.
  - inversion Hl as [|? ? Hs Hl']; subst.
    replace (seen ++ s :: l) with ((seen ++ [s]) ++ l) by (rewrite <- app_assoc; reflexivity).
    apply IH; [exact Hl'|]. apply loopInvariant_step; assumption.
Qed.

Lemma findNearest_invariant (act : list App.Shuttle) :
  loopInvariant (List.filter App.hasPosition act) (App.findNearest M userLat userLng act).
Proof.
  unfold App.findNearest. rewrite findNearest_skips_no_position.
  apply (loopInvariant_fold _ []).
  - apply List.Forall_forall. intros s Hs. apply List.filter_In in Hs. apply Hs.
  - split; [reflexivity|]. intros c [].
Qed.

(** The loop holds a shuttle exactly when some candidate's distance is
    below [Infinity], and then it is their first minimum. *)
Lemma findNearest_some (act : list App.Shuttle) (c : App.Shuttle) :
  In c (List.filter App.hasPosition act) -> (d c <? infinity) = true ->
  exists w, fst (App.findNearest M userLat userLng act) = Some w /\
            Spec.firstMinimum d (List.filter App.hasPosition act) w.
Proof.
  intros Hc Hfin. pose proof (findNearest_invariant act) as Hinv.
  unfold SearchLoop.loopInvariant in Hinv.
  destruct (fst (App.findNearest M userLat userLng act)) as [w|].
  - destruct Hinv as [_ (pre & post & Hseen & Hw & Hmin & Hfirst)].
    exists w. split; [reflexivity|]. exists pre, post.
    repeat split; try assumption.
    intros c' Hc' Hfin'. apply (leb_of_not_ltb _ _ infinity infinity); auto.
  - destruct Hinv as [_ Hnone]. rewrite (Hnone c Hc) in Hfin. discriminate.
Qed.

Lemma findNearest_none (act : list App.Shuttle) :
  (forall c, In c (List.filter App.hasPosition act) -> (d c <? infinity) = false) ->
  fst (App.findNearest M userLat userLng act) = None.
Proof.
  intros Hnone. pose proof (findNearest_invariant act) as Hinv.
  unfold SearchLoop.loopInvariant in Hinv.
  destruct (fst (App.findNearest M userLat userLng act)) as [w|]; [|reflexivity].
  destruct Hinv as [_ (pre & post & Hseen & Hw & _)].
  rewrite Hnone in Hw; [discriminate|]. rewrite Hseen. apply in_elt.
Qed.

End NearestSearch.

(** ** Selection and the nearest-vehicle search *)

Section Selection.

Import App.

(** With an active shuttle in the list, a search that obtains a position
    runs the success callback on the active shuttles, and shows no alert. *)
Lemma findNearestActive_position (M : Math) (shuttles : list Shuttle)
    (userLat userLng : float) (st : AppState) :
  List.filter isActive shuttles <> [] ->
  findNearestActive M shuttles (Position userLat userLng) st =
    (onPosition M (List.filter isActive shuttles) userLat userLng
       {| selectedShuttleId := selectedShuttleId st;
          nearestShuttleId := nearestShuttleId st;
          isLocating := true |}, None).
Proof.
  intros Hact. unfold findNearestActive, handleFindNearest. simpl.
  destruct (List.filter isActive shuttles) as [|s act]; [congruence|reflexivity].
Qed.

Lemma candidates_active (shuttles : list Shuttle) (c : Shuttle) :
  In c (candidates shuttles) -> List.filter isActive shuttles <> [].
Proof.
  unfold candidates. intros Hc. apply List.filter_In in Hc. destruct Hc as [Hc _].
  intros Hnil. rewrite Hnil in Hc. exact Hc.
Qed.

(** C1 (amended): for every snapshot and user position, when some active
    record with a non-zero position has a distance that is a Number below
    [Infinity], [findNearestActive] selects among the active records with a
    non-zero position the one of minimum haversine distance, the
    first-encountered in snapshot order on a tie, and sets both
    [selectedId] and [nearestId] to its id.  (Being a function of its
    input, the choice is the same at every call.) *)
Theorem findNearestActive_selects_first_minimum (M : Math) (shuttles : list Shuttle)
    (userLat userLng : float) (st : AppState) :
  (exists c, In c (candidates shuttles) /\
             (distanceTo M userLat userLng c <? infinity)%float = true) ->
  exists w,
    Spec.firstMinimum (distanceTo M userLat userLng) (candidates shuttles) w /\
    findNearestActive M shuttles (Position userLat userLng) st =
      ({| selectedShuttleId := Some (id w);
          nearestShuttleId := Some (id w);
          isLocating := false |}, None).
Proof.
  intros (c & Hc & Hfin).
  rewrite (findNearestActive_position M shuttles userLat userLng st (candidates_active _ _ Hc)).
  destruct (findNearest_some M userLat userLng _ c Hc Hfin) as (w & Hw & Hmin).
  exists w. split; [exact Hmin|].
  unfold onPosition. rewrite Hw. reflexivity.
Qed.

(** When no candidate has a distance below [Infinity] (each is [NaN] or
    [Infinity]), the search changes neither id. *)
Lemma findNearestActive_no_comparable_distance (M : Math) (shuttles : list Shuttle)
    (userLat userLng : float) (st : AppState) :
  List.filter isActive shuttles <> [] ->
  (forall c, In c (candidates shuttles) ->
             (distanceTo M userLat userLng c <? infinity)%float = false) ->
  findNearestActive M shuttles (Position userLat userLng) st =
    ({| selectedShuttleId := selectedShuttleId st;
        nearestShuttleId := nearestShuttleId st;
        isLocating := false |}, None).
Proof.
  intros Hact Hnone. rewrite (findNearestActive_position M _ _ _ _ Hact).
  unfold onPosition. rewrite (findNearest_none M userLat userLng _ Hnone). reflexivity.
Qed.

(** The distance to a shuttle whose latitude is [Infinity] is [NaN] on
    every host: [Math.sin] of an infinity is [NaN], and [NaN] goes through
    the sum, [Math.sqrt] and [Math.atan2]. *)
Lemma calculateDistance_infinite_latitude (M : Math) `{!EcmaMath M} :
  calculateDistance M 33.64 72.99 infinity 72.98 = nan.
Proof.
  cbv beta zeta delta [calculateDistance].
  change ((infinity - 33.64) * Math_PI / 180 / 2)%float with infinity.
  rewrite sin_infinity.
  change (nan * nan)%float with nan.
  rewrite add_nan_l, sqrt_nan, atan2_nan_l. reflexivity.
Qed.

(** C1 (as stated) fails: the only shuttle is active and has a non-zero
    position, so the candidate set is not empty; its latitude is
    [Infinity] (the feed value ["Infinity"] parses to it), its distance is
    [NaN] on every host, [NaN < Infinity] is false, and the search leaves
    [selectedId] and [nearestId] unset. *)
Lemma findNearestActive_nan_distance_counterexample :
  let far := {| id := "s1"; latitude := infinity; longitude := 72.98;
                isActive := true |} in
  candidates [far] = [far] /\
  parseFloat (VStr "Infinity") = infinity /\
  forall M, EcmaMath M ->
    findNearestActive M [far] (Position 33.64 72.99) initialState = (initialState, None).
Proof.
  cbv zeta. split; [reflexivity|]. split; [reflexivity|]. intros M HM.
  rewrite findNearestActive_no_comparable_distance; [reflexivity|discriminate|].
  intros c [<-|[]]. unfold distanceTo. simpl.
  rewrite (@calculateDistance_infinite_latitude M HM). reflexivity.
Qed.

(** The alerts of the error callback are not the "no active shuttles"
    one. *)
Lemma onPositionError_message (code : Z) (st : AppState) :
  snd (onPositionError code st) <> noActiveShuttles.
Proof.
  unfold onPositionError. simpl.
  destruct (code =? 1); [discriminate|].
  destruct (code =? 2); [discriminate|].
  destruct (code =? 3); discriminate.
Qed.

(** C4 (amended): for every snapshot and every answer of the position
    provider, [findNearestActive] fails with "No active shuttles
    available" if and only if the snapshot has no active record, whatever
    the positions; on this failure the state is unchanged.  When records
    are active but none has both coordinates non-zero, the search with a
    position ends without a notice and leaves [selectedId] and
    [nearestId] unchanged. *)
Theorem noActiveShuttles_iff_none_active (M : Math) (shuttles : list Shuttle)
    (st : AppState) :
  (forall answer,
     snd (findNearestActive M shuttles answer st) = Some noActiveShuttles <->
     List.filter isActive shuttles = []) /\
  (List.filter isActive shuttles = [] ->
   forall answer, findNearestActive M shuttles answer st = (st, Some noActiveShuttles)) /\
  (List.filter isActive shuttles <> [] -> candidates shuttles = [] ->
   forall userLat userLng,
     findNearestActive M shuttles (Position userLat userLng) st =
       ({| selectedShuttleId := selectedShuttleId st;
           nearestShuttleId := nearestShuttleId st;
           isLocating := false |}, None)).
Proof.
  split; [|split].
  - intros answer. unfold findNearestActive, handleFindNearest. simpl.
    destruct (List.filter isActive shuttles) as [|s act]; simpl.
    + split; reflexivity.
    + split; [|discriminate]. destruct answer as [la lo|code]; simpl; [discriminate|].
      intros Hmsg. injection Hmsg as Hmsg.
      exfalso. exact (onPositionError_message code st Hmsg).
  - intros Hnone answer. unfold findNearestActive, handleFindNearest. simpl.
    rewrite Hnone. reflexivity.
  - intros Hact Hcands userLat userLng.
    apply findNearestActive_no_comparable_distance; [exact Hact|].
    rewrite Hcands. intros c [].
Qed.

(** C4 (as stated) fails: the one record is active but at [(0, 0)], so the
    set of active records with a non-zero position is empty; yet the
    handler shows no "No active shuttles available" alert, it requests a
    position, and the search ends without any notice. *)
Lemma noActiveVehicles_zero_position_counterexample :
  let origin := {| id := "s1"; latitude := 0; longitude := 0; isActive := true |} in
  candidates [origin] = [] /\
  handleFindNearest true [origin] initialState =
    ({| selectedShuttleId := None; nearestShuttleId := None; isLocating := true |},
     Locating [origin]) /\
  forall M userLat userLng,
    findNearestActive M [origin] (Position userLat userLng) initialState =
      (initialState, None).
Proof.
  cbv zeta. split; [reflexivity|]. split; [reflexivity|]. intros M userLat userLng.
  rewrite findNearestActive_no_comparable_distance; [reflexivity|discriminate|].
  intros c [].
Qed.

(** C7: [selectOrToggle(id)] with [id] equal to the current [selectedId]
    clears both [selectedId] and [nearestId], so two calls in a row with
    the same id from an unselected state leave [selectedId] unset; with a
    different [id] it sets [selectedId] to [id] and clears [nearestId]
    unless [id] equals the prior [nearestId], which is then kept. *)
Theorem handleShuttleSelect_toggle (shuttleId : option string) (st : AppState) :
  (shuttleId = selectedShuttleId st ->
   selectedShuttleId (handleShuttleSelect shuttleId st) = None /\
   nearestShuttleId (handleShuttleSelect shuttleId st) = None) /\
  (shuttleId <> selectedShuttleId st ->
   selectedShuttleId (handleShuttleSelect shuttleId st) = shuttleId /\
   (shuttleId = nearestShuttleId st ->
    nearestShuttleId (handleShuttleSelect shuttleId st) = nearestShuttleId st) /\
   (shuttleId <> nearestShuttleId st ->
    nearestShuttleId (handleShuttleSelect shuttleId st) = None)) /\
  (selectedShuttleId st = None ->
   forall s, selectedShuttleId
               (handleShuttleSelect (Some s) (handleShuttleSelect (Some s) st)) = None).
Proof.
  unfold handleShuttleSelect, sameId. split; [|split].
  - intros Heq. rewrite bool_decide_eq_true_2 by exact Heq. split; reflexivity.
  - intros Hne. rewrite bool_decide_eq_false_2 by exact Hne. simpl. split; [reflexivity|].
    split; intros Hn.
    + rewrite bool_decide_eq_true_2 by exact Hn. reflexivity.
    + rewrite bool_decide_eq_false_2 by exact Hn. reflexivity.
  - intros Hnone s. rewrite Hnone.
    rewrite (bool_decide_eq_false_2 (Some s = None)) by discriminate. simpl.
    rewrite bool_decide_eq_true_2 by reflexivity. reflexivity.
Qed.

(** Every handler re-establishes the invariant, or keeps it. *)
Lemma handleShuttleSelect_invariant (shuttleId : option string) (st : AppState) :
  Spec.selectionInvariant (handleShuttleSelect shuttleId st).
Proof.
  unfold Spec.selectionInvariant, handleShuttleSelect, sameId.
  destruct (bool_decide (shuttleId = selectedShuttleId st)); simpl; [left; reflexivity|].
  destruct (bool_decide (shuttleId = nearestShuttleId st)) eqn:Hn; simpl.
  - right. apply bool_decide_eq_true_1 in Hn. congruence.
  - left. reflexivity.
Qed.

Lemma handleMapClick_invariant (st : AppState) :
  Spec.selectionInvariant st -> Spec.selectionInvariant (handleMapClick st).
Proof.
  intros Hinv. unfold handleMapClick.
  destruct (truthyId (selectedShuttleId st)); [apply handleShuttleSelect_invariant|exact Hinv].
Qed.

Lemma onPosition_invariant (M : Math) (act : list Shuttle) (userLat userLng : float)
    (st : AppState) :
  Spec.selectionInvariant st -> Spec.selectionInvariant (onPosition M act userLat userLng st).
Proof.
  intros Hinv. unfold onPosition.
  destruct (fst (findNearest M userLat userLng act)); [right; reflexivity|exact Hinv].
Qed.

Lemma step_invariant (M : Math) (st : AppState) (ev : Event) :
  Spec.selectionInvariant st -> Spec.selectionInvariant (step M st ev).
Proof.
  intros Hinv. destruct ev as [i| |g shuttles|act la lo|code]; simpl.
  - apply handleShuttleSelect_invariant.
  - apply handleMapClick_invariant, Hinv.
  - unfold handleFindNearest. destruct (negb g); [exact Hinv|].
    destruct (length (List.filter isActive shuttles) =? 0)%nat; exact Hinv.
  - apply onPosition_invariant, Hinv.
  - exact Hinv.
Qed.

Lemma fold_invariant (M : Math) (events : list Event) (st : AppState) :
  Spec.selectionInvariant st -> Spec.selectionInvariant (fold_left (step M) events st).
Proof.
  revert st. induction events as [|ev events IH]; intros st Hinv; simpl; [exact Hinv|].
  apply IH, step_invariant, Hinv.
Qed.

(** C6: [nearestId] is unset or equal to [selectedId] in the initial state,
    after [selectOrToggle] with any id, after a background deselection and
    after a search from any state that satisfies it, hence in every state
    reachable from the initial one by clicks, searches and position
    callbacks in any order. *)
Theorem nearest_unset_or_selected (M : Math) :
  Spec.selectionInvariant initialState /\
  (forall shuttleId st, Spec.selectionInvariant (handleShuttleSelect shuttleId st)) /\
  (forall st, Spec.selectionInvariant st -> Spec.selectionInvariant (handleMapClick st)) /\
  (forall shuttles answer st,
     Spec.selectionInvariant st ->
     Spec.selectionInvariant (fst (findNearestActive M shuttles answer st))) /\
  (forall events, Spec.selectionInvariant (run M events)).
Proof.
  split; [left; reflexivity|]. split; [exact handleShuttleSelect_invariant|].
  split; [exact handleMapClick_invariant|]. split.
  - intros shuttles answer st Hinv. unfold findNearestActive, handleFindNearest. simpl.
    destruct (length (List.filter isActive shuttles) =? 0)%nat; [exact Hinv|].
    destruct answer as [la lo|code]; simpl; [|exact Hinv].
    apply onPosition_invariant. exact Hinv.
  - intros events. apply fold_invariant. left. reflexivity.
Qed.

End Selection.

(** ** The feed normalizer *)

Section Normalizer.

Import Firebase.

(** The record built from an entry that is not [null] or [undefined]. *)
Lemma normalizeEntry_normal (id : string) (shuttle : JsVal) (rec : Obj) :
  normalizeEntry (id, shuttle) = Normal rec ->
  rec =
    <["speed" := VNum (orZero (parseFloat (get shuttle "speed")))]>
    (<["prevLong" := VNum (orZero (parseFloat (get shuttle "prevLong")))]>
    (<["prevLat" := VNum (orZero (parseFloat (get shuttle "prevLat")))]>
    (<["longitude" := VNum (orZero (parseFloat (get shuttle "logitude")))]>
    (<["latitude" := VNum (orZero (parseFloat (get shuttle "latitude")))]>
    (spread shuttle ∪ {["id" := VStr id]}))))).
Proof.
  unfold normalizeEntry. destruct (isNullish shuttle); [discriminate|].
  intros H. injection H as <-. reflexivity.
Qed.

(** [x || 0] is never [NaN], is [0] when [x] is [NaN] or a zero, and is
    [x] otherwise. *)
Lemma orZero_not_nan (x : float) : is_nan (orZero x) = false.
Proof.
  unfold orZero, truthyNum. destruct (is_zero x) eqn:Hz; simpl; [reflexivity|].
  destruct (is_nan x) eqn:Hn; simpl; [reflexivity|exact Hn].
Qed.

Lemma orZero_of_nan (x : float) : is_nan x = true -> orZero x = zero.
Proof.
  intros Hn. unfold orZero, truthyNum. rewrite Hn, orb_true_r. reflexivity.
Qed.

(** C2 (amended): for every raw feed entry, the record's longitude is the
    parse-or-zero of the misspelled key [logitude], and of nothing else: a
    correctly spelled [longitude] in the entry is overwritten, whatever it
    holds, so the misspelled key is used when only it exists and also when
    both exist. *)
Theorem normalizeEntry_longitude_from_logitude (id : string) (shuttle : JsVal) (rec : Obj) :
  normalizeEntry (id, shuttle) = Normal rec ->
  rec !! "longitude" = Some (VNum (orZero (parseFloat (get shuttle "logitude")))) /\
  (forall (o : Obj) (v : JsVal),
     shuttle = VObj (<["longitude" := v]> o) ->
     rec !! "longitude" = Some (VNum (orZero (parseFloat (get (VObj o) "logitude"))))).
Proof.
  intros Hrec. apply normalizeEntry_normal in Hrec. subst rec.
  assert (Hlon : forall m : Obj, forall a b c d : JsVal,
            (<["speed" := a]> (<["prevLong" := b]> (<["prevLat" := c]>
               (<["longitude" := d]> m)))) !! "longitude" = Some d).
  { intros m a b c d. rewrite !lookup_insert_ne by discriminate.
    apply lookup_insert_eq. }
  split; [apply Hlon|].
  intros o v ->. rewrite Hlon. simpl.
  rewrite lookup_insert_ne by discriminate. reflexivity.
Qed.

(** C2 (as stated) fails: the entry holds both keys; the record's
    longitude is 72.98, parsed from [logitude], and not 10.5, the parsed
    value of the correctly spelled key. *)
Lemma normalizeEntry_prefers_logitude_counterexample :
  exists rec,
    normalizeEntry
      ("s1", VObj {[ "logitude" := VStr "72.98"; "longitude" := VStr "10.5" ]}) = Normal rec /\
    rec !! "longitude" = Some (VNum 72.98) /\
    parseFloat (VStr "10.5") = 10.5%float /\
    (72.98 =? 10.5)%float = false.
Proof.
  eexists. split; [reflexivity|]. split; [vm_compute; reflexivity|].
  split; vm_compute; reflexivity.
Qed.

Lemma orZero_of_zero (x : float) : is_zero x = true -> orZero x = zero.
Proof.
  intros Hz. unfold orZero, truthyNum. rewrite Hz. reflexivity.
Qed.

(** The parsed value is [NaN], a zero, or truthy; there is no fourth case. *)
Lemma truthyNum_cases (x : float) :
  is_nan x = true \/ is_zero x = true \/ truthyNum x = true.
Proof.
  unfold truthyNum. destruct (is_zero x), (is_nan x); simpl; tauto.
Qed.

(** C8 (amended): for every raw feed entry, the record's speed is a Number
    that is never [NaN]: it is 0 when the upstream speed is absent or
    unparseable or parses to a zero (of either sign), and otherwise it is
    the parsed value, of whatever sign: negative when the parsed value is
    negative.  These cases are all the cases, so the speed is determined:
    it is [parseFloat(shuttle.speed) || 0]. *)
Theorem normalizeEntry_speed_parse_or_zero (id : string) (shuttle : JsVal) (rec : Obj) :
  normalizeEntry (id, shuttle) = Normal rec ->
  exists speed,
    rec !! "speed" = Some (VNum speed) /\
    is_nan speed = false /\
    (get shuttle "speed" = VUndefined -> speed = zero) /\
    (is_nan (parseFloat (get shuttle "speed")) = true -> speed = zero) /\
    (is_zero (parseFloat (get shuttle "speed")) = true -> speed = zero) /\
    (truthyNum (parseFloat (get shuttle "speed")) = true ->
     speed = parseFloat (get shuttle "speed")) /\
    ((parseFloat (get shuttle "speed") <? 0)%float = true ->
     speed = parseFloat (get shuttle "speed") /\ (speed <? 0)%float = true) /\
    (is_nan (parseFloat (get shuttle "speed")) = true \/
     is_zero (parseFloat (get shuttle "speed")) = true \/
     truthyNum (parseFloat (get shuttle "speed")) = true).
Proof.
  intros Hrec. apply normalizeEntry_normal in Hrec. subst rec.
  eexists. split; [apply lookup_insert_eq|].
  split; [apply orZero_not_nan|].
  assert (Htruthy : truthyNum (parseFloat (get shuttle "speed")) = true ->
                    orZero (parseFloat (get shuttle "speed")) =
                    parseFloat (get shuttle "speed")).
  { intros Ht. unfold orZero. rewrite Ht. reflexivity. }
  repeat split.
  - intros ->. reflexivity.
  - apply orZero_of_nan.
  - apply orZero_of_zero.
  - exact Htruthy.
  - apply Htruthy, ltb_zero_truthy. assumption.
  - rewrite Htruthy by (apply ltb_zero_truthy; assumption). assumption.
  - apply truthyNum_cases.
Qed.

(** C8 (as stated) fails: an upstream speed of ["-5"] gives the record the
    speed -5, a negative Number. *)
Lemma normalizeEntry_negative_speed_counterexample :
  exists rec,
    normalizeEntry ("s1", VObj {[ "speed" := VStr "-5" ]}) = Normal rec /\
    rec !! "speed" = Some (VNum (-5)) /\
    (-5 <? 0)%float = true.
Proof.
  eexists. split; [reflexivity|]. split; vm_compute; reflexivity.
Qed.

End Normalizer.

(** ** The activity classifier *)

Section Classifier.

Import Firebase.




(** A truthy [activeStatus] that is not a string makes the classifier
    throw. *)
Lemma isShuttleActive_boolean_status_throws (now : Z) :
  exists e, isShuttleActive now {[ "activeStatus" := VBool true ]} = Throw e.
Proof. eexists. reflexivity. Qed.

End Classifier.

(** ** The route path extractor *)

Section RoutePath.

Import UseShuttles.










End RoutePath.

(** ** The synchronization session *)

Section Session.

Import Firebase UseShuttles.

Lemma deliver_error_unset (now : Z) (ev : FeedEvent) (st : HookState) :
  error st = None -> error (deliver now ev st) = None.
Proof.
  intros Hst. unfold deliver, subscribeToShuttles, onData.
  destruct ev as [data|err]; simpl; [|reflexivity].
  destruct (truthy data); simpl; [|reflexivity].
  destruct (mapM normalizeEntry (Object_entries data)) as [arr|e]; simpl; [|exact Hst].
  destruct (mapM (processShuttle now) arr) as [processed|e]; simpl; [reflexivity|exact Hst].
Qed.

Lemma fold_deliver_error_unset (events : list (Z * FeedEvent)) (st : HookState) :
  error st = None ->
  error (fold_left (fun st e => deliver (fst e) (snd e) st) events st) = None.
Proof.
  revert st. induction events as [|e events IH]; intros st Hst; simpl; [exact Hst|].
  apply IH, deliver_error_unset, Hst.
Qed.

(** C9 (what the code does): when the subscription's error listener runs,
    the hook receives an empty list: it shows no shuttles, stops loading
    and sets [error] to [null]; and [error] is [null] in every state the
    hook can reach, so the error signal is never raised. *)
Theorem feed_error_leaves_error_unset (now : Z) (err : string) (st : HookState) :
  deliver now (Cancelled err) st =
    {| shuttles := []; loading := false; error := None; lastUpdated := Some now |} /\
  (forall events, error (run events) = None).
Proof.
  split; [reflexivity|]. intros events. apply fold_deliver_error_unset. reflexivity.
Qed.

End Session.

(** ** Further properties of the feed pipeline *)

Section Pipeline.

Import Firebase UseShuttles App.

(** The record's [id] is the entry's key unless the entry has a property
    named [id] of its own, which then replaces it. *)
Theorem normalizeEntry_id (key : string) (o : Obj) (rec : Obj) :
  normalizeEntry (key, VObj o) = Normal rec ->
  rec !! "id" = Some (default (VStr key) (o !! "id")).
Proof.
  intros Hrec. apply normalizeEntry_normal in Hrec. subst rec.
  do 5 (rewrite lookup_insert_ne by discriminate). simpl.
  rewrite lookup_union, lookup_singleton_eq.
  destruct (o !! "id") as [v|]; reflexivity.
Qed.

Lemma mapM_length {A B} (f : A -> Completion B) (l : list A) (r : list B) :
  mapM f l = Normal r -> length r = length l.
Proof.
  revert r. induction l as [|x l IH]; simpl; intros r Hr.
  - injection Hr as <-. reflexivity.
  - destruct (f x) as [y|e]; simpl in Hr; [|discriminate].
    destruct (mapM f l) as [ys|e]; simpl in Hr; [|discriminate].
    injection Hr as <-. simpl. rewrite (IH ys eq_refl). reflexivity.
Qed.

(** After a push that is processed, the hook holds exactly one shuttle per
    top-level entry of the payload, is no longer loading, and counts at
    most as many active shuttles as shuttles. *)
Theorem deliver_counts (now : Z) (data : JsVal) (st st' : HookState) :
  subscribeToShuttles (onData now) (Value data) st = Normal st' ->
  totalCount st' = (if truthy data then length (Object_entries data) else 0%nat) /\
  (activeCount st' <= totalCount st')%nat /\
  loading st' = false.
Proof.
  unfold subscribeToShuttles, onData, totalCount, activeCount.
  destruct (truthy data); simpl.
  - destruct (mapM normalizeEntry (Object_entries data)) as [arr|e] eqn:Harr;
      simpl; [|discriminate].
    destruct (mapM (processShuttle now) arr) as [processed|e] eqn:Hproc;
      simpl; [|discriminate].
    intros H. injection H as <-. simpl.
    rewrite (mapM_length _ _ _ Hproc), (mapM_length _ _ _ Harr).
    split; [reflexivity|]. split; [|reflexivity].
    rewrite <- (mapM_length _ _ _ Harr), <- (mapM_length _ _ _ Hproc).
    apply List.filter_length_le.
  - intros H. injection H as <-. simpl. repeat split; lia.
Qed.

Lemma mapM_In {A B} (f : A -> Completion B) (l : list A) (r : list B) (y : B) :
  mapM f l = Normal r -> In y r -> exists x, In x l /\ f x = Normal y.
Proof.
  revert r. induction l as [|x l IH]; simpl; intros r Hr Hy.
  - injection Hr as <-. destruct Hy.
  - destruct (f x) as [y0|e] eqn:Hx; simpl in Hr; [|discriminate].
    destruct (mapM f l) as [ys|e]; simpl in Hr; [|discriminate].
    injection Hr as <-. destruct Hy as [<-|Hy].
    + exists x. split; [left; reflexivity|exact Hx].
    + destruct (IH ys eq_refl Hy) as (x' & Hin & Hfx). exists x'. split; [right|]; assumption.
Qed.

(** Every shuttle the hook holds after a processed push comes from an
    entry of the payload and has Number coordinates that are never [NaN]:
    its latitude is [parseFloat(entry.latitude) || 0] and its longitude is
    [parseFloat(entry.logitude) || 0], the parsed value when that is
    truthy and 0 when it is [NaN] or a zero; it has a boolean [isActive];
    and when its [id] is a string, [App] reads it as the record
    [viewShuttle] gives. *)
Theorem processed_shuttles_typed (now : Z) (data : JsVal) (st st' : HookState) :
  subscribeToShuttles (onData now) (Value data) st = Normal st' ->
  List.Forall
    (fun o : Obj =>
       exists key entry la lo a,
         In (key, entry) (Object_entries data) /\
         la = orZero (parseFloat (get entry "latitude")) /\
         lo = orZero (parseFloat (get entry "logitude")) /\
         (truthyNum (parseFloat (get entry "latitude")) = true ->
          la = parseFloat (get entry "latitude")) /\
         (truthyNum (parseFloat (get entry "latitude")) = false -> la = zero) /\
         (truthyNum (parseFloat (get entry "logitude")) = true ->
          lo = parseFloat (get entry "logitude")) /\
         (truthyNum (parseFloat (get entry "logitude")) = false -> lo = zero) /\
         o !! "latitude" = Some (VNum la) /\ is_nan la = false /\
         o !! "longitude" = Some (VNum lo) /\ is_nan lo = false /\
         o !! "isActive" = Some (VBool a) /\
         (forall i, o !! "id" = Some (VStr i) ->
            viewShuttle o =
              Some {| id := i; latitude := la; longitude := lo; isActive := a |}))
    (shuttles st').
Proof.
  unfold subscribeToShuttles, onData.
  destruct (truthy data); simpl.
  - destruct (mapM normalizeEntry (Object_entries data)) as [arr|e] eqn:Harr;
      simpl; [|discriminate].
    destruct (mapM (processShuttle now) arr) as [processed|e] eqn:Hproc;
      simpl; [|discriminate].
    intros H. injection H as <-. simpl. apply List.Forall_forall. intros o Ho.
    destruct (mapM_In _ _ _ _ Hproc Ho) as (rec & Hrec & Hprocessed).
    destruct (mapM_In _ _ _ _ Harr Hrec) as ([key shuttle] & Hentry & Hnorm).
    assert (Hla : rec !! "latitude"
                  = Some (VNum (orZero (parseFloat (get shuttle "latitude"))))).
    { rewrite (normalizeEntry_normal _ _ _ Hnorm).
      do 4 (rewrite lookup_insert_ne by discriminate). apply lookup_insert_eq. }
    assert (Hlo : rec !! "longitude"
                  = Some (VNum (orZero (parseFloat (get shuttle "logitude"))))).
    { rewrite (normalizeEntry_normal _ _ _ Hnorm).
      do 3 (rewrite lookup_insert_ne by discriminate). apply lookup_insert_eq. }
    pose proof (orZero_not_nan (parseFloat (get shuttle "latitude"))) as Hlan.
    pose proof (orZero_not_nan (parseFloat (get shuttle "logitude"))) as Hlon.
    set (la := orZero (parseFloat (get shuttle "latitude"))) in *.
    set (lo := orZero (parseFloat (get shuttle "logitude"))) in *.
    unfold processShuttle in Hprocessed.
    destruct (isShuttleActive now rec) as [a|e]; simpl in Hprocessed; [|discriminate].
    injection Hprocessed as <-. exists key, shuttle, la, lo, a.
    split; [exact Hentry|]. split; [reflexivity|]. split; [reflexivity|].
    split; [intros Ht; unfold la, orZero; rewrite Ht; reflexivity|].
    split; [intros Ht; unfold la, orZero; rewrite Ht; reflexivity|].
    split; [intros Ht; unfold lo, orZero; rewrite Ht; reflexivity|].
    split; [intros Ht; unfold lo, orZero; rewrite Ht; reflexivity|].
    assert (Hlat' : (<["routePath" := pathValue (formatRoutePath (prop rec "route"))]>
                     (<["isActive" := VBool a]> rec)) !! "latitude" = Some (VNum la))
      by (do 2 (rewrite lookup_insert_ne by discriminate); exact Hla).
    assert (Hlon' : (<["routePath" := pathValue (formatRoutePath (prop rec "route"))]>
                     (<["isActive" := VBool a]> rec)) !! "longitude" = Some (VNum lo))
      by (do 2 (rewrite lookup_insert_ne by discriminate); exact Hlo).
    assert (Hact' : (<["routePath" := pathValue (formatRoutePath (prop rec "route"))]>
                     (<["isActive" := VBool a]> rec)) !! "isActive" = Some (VBool a))
      by (rewrite lookup_insert_ne by discriminate; apply lookup_insert_eq).
    repeat (split; [assumption|]).
    intros i Hid. unfold viewShuttle. rewrite Hid, Hlat', Hlon', Hact'. reflexivity.
  - intros H. injection H as <-. simpl. constructor.
Qed.

Lemma withinFiveMinutes_monotone (now1 now2 t : Z) :
  now2 <= now1 -> withinFiveMinutes now1 t = true -> withinFiveMinutes now2 t = true.
Proof.
  unfold withinFiveMinutes. destruct (TimeClip t) as [lastActive|]; [|discriminate].
  rewrite !Z.ltb_lt. lia.
Qed.

(** The classifier is monotonic in freshness: a record classified active at
    one clock reading is classified active at every earlier reading; as the
    elapsed time decreases the result can only turn from false to true. *)
Theorem isShuttleActive_monotone_in_freshness (now1 now2 : Z) (shuttle : Obj) :
  now2 <= now1 ->
  isShuttleActive now1 shuttle = Normal true ->
  isShuttleActive now2 shuttle = Normal true.
Proof.
  intros Hle. unfold isShuttleActive. cbv zeta.
  destruct (if truthy (prop shuttle "activeStatus") then _ else _) as [b|e];
    simpl; [|discriminate].
  destruct b; [reflexivity|].
  destruct (truthy (prop shuttle "lastActiveTime")
            && notStringZero (prop shuttle "lastActiveTime")); [|discriminate].
  destruct (parseInt (prop shuttle "lastActiveTime")) as [t|]; [|discriminate].
  intros H. injection H as H. rewrite (withinFiveMinutes_monotone _ _ _ Hle H). reflexivity.
Qed.

(** A click on the map background while a shuttle with a non-empty id is
    selected clears both ids. *)
Theorem handleMapClick_clears (st : AppState) :
  truthyId (selectedShuttleId st) = true ->
  handleMapClick st =
    {| selectedShuttleId := None; nearestShuttleId := None; isLocating := isLocating st |}.
Proof.
  intros Hsel. unfold handleMapClick, handleShuttleSelect, sameId. rewrite Hsel.
  destruct (selectedShuttleId st) as [s|]; [|discriminate].
  rewrite (bool_decide_eq_false_2 (None = Some s)) by discriminate. simpl.
  destruct (nearestShuttleId st) as [n|]; reflexivity.
Qed.

End Pipeline.

(** ** Worked instances *)

Section Instances.

Import Firebase UseShuttles App.

(** The reference host gives the special values ECMA-262 prescribes. *)
Lemma RefMath_conforms : EcmaMath RefMath.host.
Proof.
  split; intros; reflexivity.
Qed.

(** [Number::toString] on some Numbers, and the text read back. *)
Example Number_toString_samples :
  Number_toString 33.64 = "33.64" /\
  Number_toString 1700000000000 = "1700000000000" /\
  Number_toString 1e21 = "1e+21" /\
  Number_toString 1.5e-7 = "1.5e-7" /\
  Number_toString (0.1 + 0.2) = "0.30000000000000004" /\
  parseFloatString (Number_toString (0.1 + 0.2)) = (0.1 + 0.2)%float /\
  parseFloatString (Number_toString 5e-324) = parseFloat (VNum 5e-324) /\
  parseFloatString (Number_toString (-72.98)) = parseFloat (VNum (-72.98)).
Proof. repeat split; vm_compute; reflexivity. Qed.

(** The payload of the specification's scenario: one record with the
    parsed coordinates and speed, classified active. *)
Example scenario_single_shuttle :
  let payload :=
    VObj {[ "s1" := VObj {[ "latitude" := VStr "33.64"; "logitude" := VStr "72.98";
                            "speed" := VStr "12"; "activeStatus" := VStr "active" ]} ]} in
  let st := UseShuttles.deliver 1700000000000 (Value payload) UseShuttles.initialState in
  (viewShuttle <$> shuttles st) =
    [Some {| id := "s1"; latitude := 33.64; longitude := 72.98; isActive := true |}] /\
  (fun s => prop s "speed") <$> shuttles st = [VNum 12] /\
  loading st = false /\ activeCount st = 1%nat /\ totalCount st = 1%nat.
Proof. cbv zeta. repeat split; vm_compute; reflexivity. Qed.

(** An empty feed root: no shuttle, and loading ends. *)
Example scenario_empty_root :
  UseShuttles.deliver 1700000000000 (Value VNull) UseShuttles.initialState =
    {| shuttles := []; loading := false; error := None;
       lastUpdated := Some 1700000000000 |}.
Proof. reflexivity. Qed.

(** The search of the specification's scenario, on the reference host: of
    two active candidates about 1.0 km and 0.5 km from the user, the
    nearer one becomes both selected and nearest. *)
Example scenario_nearest_of_two :
  let shuttles :=
    [ {| id := "s1"; latitude := 33.6515; longitude := 72.9930; isActive := true |};
      {| id := "s2"; latitude := 33.6470; longitude := 72.9930; isActive := true |} ] in
  findNearestActive RefMath.host shuttles (Position 33.6425 72.9930) initialState =
    ({| selectedShuttleId := Some "s2"; nearestShuttleId := Some "s2";
        isLocating := false |}, None).
Proof. vm_compute. reflexivity. Qed.

(** The search theorem at a snapshot with a shuttle at [(0, 0)], two
    candidates and an inactive shuttle, on the reference host. *)
Lemma findNearestActive_selects_first_minimum_witness :
  let shuttles :=
    [ {| id := "s0"; latitude := 0; longitude := 0; isActive := true |};
      {| id := "s1"; latitude := 33.6515; longitude := 72.9930; isActive := true |};
      {| id := "s2"; latitude := 33.6470; longitude := 72.9930; isActive := true |};
      {| id := "s3"; latitude := 33.6425; longitude := 72.9930; isActive := false |} ] in
  (exists c, In c (candidates shuttles) /\
             (distanceTo RefMath.host 33.6425 72.9930 c <? infinity)%float = true) /\
  exists w,
    Spec.firstMinimum (distanceTo RefMath.host 33.6425 72.9930) (candidates shuttles) w /\
    findNearestActive RefMath.host shuttles (Position 33.6425 72.9930) initialState =
      ({| selectedShuttleId := Some (id w); nearestShuttleId := Some (id w);
          isLocating := false |}, None).
Proof.
  cbv zeta.
  refine ((fun H => conj H (findNearestActive_selects_first_minimum _ _ _ _ _ H)) _).
  eexists. split; [right; left; reflexivity|vm_compute; reflexivity].
Defined.

(** The longitude theorem at an entry that holds both spellings. *)
Lemma normalizeEntry_longitude_from_logitude_witness :
  let shuttle := VObj {[ "latitude" := VStr "33.64"; "logitude" := VStr "72.98";
                         "longitude" := VStr "10.5" ]} in
  exists rec,
    normalizeEntry ("s1", shuttle) = Normal rec /\
    rec !! "longitude" = Some (VNum (orZero (parseFloat (get shuttle "logitude")))).
Proof.
  cbv zeta. eexists.
  refine ((fun H => conj H (proj1 (normalizeEntry_longitude_from_logitude "s1" _ _ H))) _).
  reflexivity.
Defined.

(** The speed theorem at an entry with the speed ["12"]. *)
Lemma normalizeEntry_speed_parse_or_zero_witness :
  let shuttle := VObj {[ "latitude" := VStr "33.64"; "speed" := VStr "12" ]} in
  exists rec,
    normalizeEntry ("s1", shuttle) = Normal rec /\
    exists speed,
      rec !! "speed" = Some (VNum speed) /\
      is_nan speed = false /\
      (get shuttle "speed" = VUndefined -> speed = zero) /\
      (is_nan (parseFloat (get shuttle "speed")) = true -> speed = zero) /\
      (is_zero (parseFloat (get shuttle "speed")) = true -> speed = zero) /\
      (truthyNum (parseFloat (get shuttle "speed")) = true ->
       speed = parseFloat (get shuttle "speed")) /\
      ((parseFloat (get shuttle "speed") <? 0)%float = true ->
       speed = parseFloat (get shuttle "speed") /\ (speed <? 0)%float = true) /\
      (is_nan (parseFloat (get shuttle "speed")) = true \/
       is_zero (parseFloat (get shuttle "speed")) = true \/
       truthyNum (parseFloat (get shuttle "speed")) = true).
Proof.
  cbv zeta. eexists.
  refine ((fun H => conj H (normalizeEntry_speed_parse_or_zero "s1" _ _ H)) _).
  reflexivity.
Defined.




(** The typing theorem at the scenario's payload. *)
Lemma processed_shuttles_typed_witness :
  let data :=
    VObj {[ "s1" := VObj {[ "latitude" := VStr "33.64"; "logitude" := VStr "72.98";
                            "speed" := VStr "12"; "activeStatus" := VStr "active" ]} ]} in
  exists st',
    subscribeToShuttles (onData 1700000000000) (Value data) UseShuttles.initialState
      = Normal st' /\
    List.Forall
      (fun o : Obj =>
         exists key entry la lo a,
           In (key, entry) (Object_entries data) /\
           la = orZero (parseFloat (get entry "latitude")) /\
           lo = orZero (parseFloat (get entry "logitude")) /\
           (truthyNum (parseFloat (get entry "latitude")) = true ->
            la = parseFloat (get entry "latitude")) /\
           (truthyNum (parseFloat (get entry "latitude")) = false -> la = zero) /\
           (truthyNum (parseFloat (get entry "logitude")) = true ->
            lo = parseFloat (get entry "logitude")) /\
           (truthyNum (parseFloat (get entry "logitude")) = false -> lo = zero) /\
           o !! "latitude" = Some (VNum la) /\ is_nan la = false /\
           o !! "longitude" = Some (VNum lo) /\ is_nan lo = false /\
           o !! "isActive" = Some (VBool a) /\
           (forall i, o !! "id" = Some (VStr i) ->
              viewShuttle o =
                Some {| id := i; latitude := la; longitude := lo; isActive := a |}))
      (shuttles st').
Proof.
  cbv zeta. eexists.
  refine ((fun H => conj H (processed_shuttles_typed 1700000000000 _ _ _ H)) _).
  vm_compute. reflexivity.
Defined.

(** The id theorem at an entry that carries an [id] of its own. *)
Lemma normalizeEntry_id_witness :
  let o : Obj := {[ "id" := VStr "bus-7"; "latitude" := VStr "33.64" ]} in
  exists rec,
    normalizeEntry ("s1", VObj o) = Normal rec /\
    rec !! "id" = Some (default (VStr "s1") (o !! "id")) /\
    default (VStr "s1") (o !! "id") = VStr "bus-7".
Proof.
  cbv zeta. eexists.
  refine ((fun H => conj H (conj (normalizeEntry_id "s1" _ _ H) _)) _).
  - reflexivity.
  - reflexivity.
Defined.

(** The counting theorem at a payload of two entries, one of them active. *)
Lemma deliver_counts_witness :
  let data :=
    VObj {[ "s1" := VObj {[ "latitude" := VStr "33.64"; "activeStatus" := VStr "active" ]};
            "s2" := VObj {[ "latitude" := VStr "33.65" ]} ]} in
  exists st',
    subscribeToShuttles (onData 1700000000000) (Value data) UseShuttles.initialState
      = Normal st' /\
    totalCount st' = (if truthy data then length (Object_entries data) else 0%nat) /\
    (activeCount st' <= totalCount st')%nat /\
    loading st' = false.
Proof.
  cbv zeta. eexists.
  refine ((fun H => conj H (deliver_counts 1700000000000 _ _ _ H)) _).
  vm_compute. reflexivity.
Defined.

(** The freshness theorem at a record seen two minutes before the later
    reading. *)
Lemma isShuttleActive_monotone_in_freshness_witness :
  let shuttle : Obj := {[ "lastActiveTime" := VStr "1700000000000" ]} in
  1700000060000 <= 1700000120000 /\
  isShuttleActive 1700000120000 shuttle = Normal true /\
  isShuttleActive 1700000060000 shuttle = Normal true.
Proof.
  cbv zeta.
  refine ((fun H1 H2 => conj H1 (conj H2
            (isShuttleActive_monotone_in_freshness _ _ _ H1 H2))) _ _).
  - lia.
  - vm_compute. reflexivity.
Defined.

(** The map click theorem at a state with a selected, nearest shuttle. *)
Lemma handleMapClick_clears_witness :
  let st := {| selectedShuttleId := Some "s2"; nearestShuttleId := Some "s2";
               isLocating := false |} in
  truthyId (selectedShuttleId st) = true /\
  handleMapClick st =
    {| selectedShuttleId := None; nearestShuttleId := None; isLocating := isLocating st |}.
Proof.
  cbv zeta. refine ((fun H => conj H (handleMapClick_clears _ H)) _). reflexivity.
Defined.

End Instances.

(** ** Selection, search and the components that show them *)

Section SelectionAndViews.

Import App.

(** Under the invariant, the branch of [handleShuttleSelect] that keeps
    [nearestShuttleId] is taken only when that cell is already [null]. *)
Lemma handleShuttleSelect_nearest_none (shuttleId : option string) (st : AppState) :
  Spec.selectionInvariant st ->
  nearestShuttleId (handleShuttleSelect shuttleId st) = None.
Proof.
  intros Hinv. unfold handleShuttleSelect, sameId.
  case_bool_decide as Hsel; simpl; [reflexivity|].
  case_bool_decide as Hnear; simpl; [|reflexivity].
  destruct Hinv as [Hnone|Hsame]; [exact Hnone|]. congruence.
Qed.

(** A click on a shuttle always removes the nearest mark: after any
    history of clicks, searches and position callbacks, a call of
    [handleShuttleSelect] leaves [nearestShuttleId] unset, whichever
    shuttle is clicked, the nearest one included. *)
Theorem select_always_clears_nearest (M : Math) (events : list Event)
    (shuttleId : option string) :
  nearestShuttleId (run M (events ++ [Select shuttleId])) = None.
Proof.
  unfold run. rewrite fold_left_app. simpl.
  apply handleShuttleSelect_nearest_none, fold_invariant. left. reflexivity.
Qed.

(** What the loop holds is a candidate of the captured list whose
    distance is below [Infinity]. *)
Lemma findNearest_held (M : Math) (userLat userLng : float) (act : list Shuttle)
    (w : Shuttle) :
  fst (findNearest M userLat userLng act) = Some w ->
  In w act /\ hasPosition w = true /\
  (distanceTo M userLat userLng w <? infinity)%float = true.
Proof.
  intros Hw. pose proof (findNearest_invariant M userLat userLng act) as Hinv.
  unfold SearchLoop.loopInvariant in Hinv. rewrite Hw in Hinv.
  destruct Hinv as [_ (pre & post & Hseen & Hfin & _)].
  assert (Hin : In w (List.filter hasPosition act)) by (rewrite Hseen; apply in_elt).
  apply List.filter_In in Hin. destruct Hin as [Hin Hpos]. repeat split; assumption.
Qed.

(** A search never selects a shuttle that is inactive, without a position,
    or at a distance that is [NaN] or [Infinity], and never invents an id:
    whatever the answer of the position provider, either both ids are as
    before, or both are the id of one active shuttle of the snapshot that
    has a position and a distance below [Infinity]. *)
Theorem findNearestActive_selects_only_candidates (M : Math) (shuttles : list Shuttle)
    (answer : PositionResult) (st : AppState) :
  (selectedShuttleId (fst (findNearestActive M shuttles answer st)) = selectedShuttleId st /\
   nearestShuttleId (fst (findNearestActive M shuttles answer st)) = nearestShuttleId st) \/
  (exists userLat userLng w,
     answer = Position userLat userLng /\
     In w shuttles /\ isActive w = true /\ hasPosition w = true /\
     (distanceTo M userLat userLng w <? infinity)%float = true /\
     selectedShuttleId (fst (findNearestActive M shuttles answer st)) = Some (id w) /\
     nearestShuttleId (fst (findNearestActive M shuttles answer st)) = Some (id w)).
Proof.
  unfold findNearestActive, handleFindNearest. simpl.
  destruct (length (List.filter isActive shuttles) =? 0)%nat; [left; split; reflexivity|].
  destruct answer as [userLat userLng|code]; simpl; [|left; split; reflexivity].
  unfold onPosition.
  destruct (fst (findNearest M userLat userLng (List.filter isActive shuttles)))
    as [w|] eqn:Hw; simpl; [|left; split; reflexivity].
  right. exists userLat, userLng, w.
  destruct (findNearest_held _ _ _ _ _ Hw) as (Hin & Hpos & Hfin).
  apply List.filter_In in Hin. destruct Hin as [Hin Hact].
  repeat split; assumption.
Qed.

(** In a list without repeated ids, looking a member up by its id finds
    that member. *)
Lemma selectedShuttle_member (shuttles : list Shuttle) (w : Shuttle) :
  List.NoDup (map id shuttles) -> In w shuttles ->
  MapView.selectedShuttle shuttles (Some (id w)) = Some w.
Proof.
  unfold MapView.selectedShuttle, sameId.
  induction shuttles as [|s shuttles IH]; simpl; intros Hnd Hin; [destruct Hin|].
  inversion Hnd as [|? ? Hfresh Hnd']; subst.
  case_bool_decide as Hid.
  - destruct Hin as [->|Hin]; [reflexivity|].
    exfalso. apply Hfresh. injection Hid as Hid. rewrite Hid.
    apply in_map. exact Hin.
  - destruct Hin as [->|Hin]; [congruence|]. apply IH; assumption.
Qed.

(** When the ids of the snapshot are distinct, the shuttle [MapView] looks
    up after a successful search, to draw its route, is the very shuttle
    the search chose: the first one of minimum distance. *)
Theorem selectedShuttle_after_search (M : Math) (shuttles : list Shuttle)
    (userLat userLng : float) (st : AppState) :
  List.NoDup (map id shuttles) ->
  (exists c, In c (candidates shuttles) /\
             (distanceTo M userLat userLng c <? infinity)%float = true) ->
  exists w,
    Spec.firstMinimum (distanceTo M userLat userLng) (candidates shuttles) w /\
    MapView.selectedShuttle shuttles
      (selectedShuttleId (fst (findNearestActive M shuttles (Position userLat userLng) st)))
    = Some w.
Proof.
  intros Hnd (c & Hc & Hfin).
  rewrite (findNearestActive_position M shuttles userLat userLng st (candidates_active _ _ Hc)).
  destruct (findNearest_some M userLat userLng _ c Hc Hfin) as (w & Hw & Hmin).
  exists w. split; [exact Hmin|]. unfold onPosition. simpl. rewrite Hw. simpl.
  apply selectedShuttle_member; [exact Hnd|].
  destruct (findNearest_held _ _ _ _ _ Hw) as (Hin & _ & _).
  apply List.filter_In in Hin. apply Hin.
Qed.

(** The newer [handleShuttleSelect] moves [selectedShuttleId] exactly as
    the earlier one did: over any sequence of clicks, from any state, the
    selected id of the newer [App] is the one the earlier [App] would
    hold. *)
Theorem handleShuttleSelect_extends_v1 (clicks : list (option string)) (st : AppState) :
  selectedShuttleId (fold_left (fun st i => handleShuttleSelect i st) clicks st) =
  fold_left (fun sel i => AppV1.handleShuttleSelect i sel) clicks (selectedShuttleId st).
Proof.
  revert st. induction clicks as [|i clicks IH]; intros st; simpl; [reflexivity|].
  rewrite IH. f_equal. unfold handleShuttleSelect, AppV1.handleShuttleSelect.
  destruct (sameId i (selectedShuttleId st)); reflexivity.
Qed.

(** The marker of a shuttle is rendered exactly when the search counts the
    shuttle as having a position: both test that latitude and longitude
    are non-zero (the marker's two comparisons with 0 add nothing). *)
Theorem marker_renders_iff_hasPosition (o : Obj) (s : Shuttle) :
  viewShuttle o = Some s -> ShuttleMarker.renders o = hasPosition s.
Proof.
  unfold viewShuttle, ShuttleMarker.renders, hasPosition, prop.
  destruct (o !! "id") as [[| | | |i| |]|]; try discriminate.
  destruct (o !! "latitude") as [[| | |la| | |]|]; try discriminate.
  destruct (o !! "longitude") as [[| | |lo| | |]|]; try discriminate.
  destruct (o !! "isActive") as [[| |a| | | |]|]; try discriminate.
  intros H. injection H as <-. simpl. unfold truthyNum, is_zero.
  change zero with 0%float.
  destruct (la =? 0)%float, (lo =? 0)%float, (is_nan la), (is_nan lo); reflexivity.
Qed.

(** When [RoutePolyline] draws a path, the two positions it marks are
    defined and are the first and the last pair of the path. *)
Theorem RoutePolyline_endpoints (path : list (float * float)) :
  MapComponents.RoutePolyline_draws path = true ->
  exists s middle e,
    path = s :: middle ++ [e] /\
    RoutePolyline.startPoint path = Some s /\
    RoutePolyline.endPoint path = Some e.
Proof.
  unfold MapComponents.RoutePolyline_draws. rewrite negb_true_iff, Z.ltb_ge. intros Hlen.
  destruct path as [|s rest]; [simpl in Hlen; lia|].
  destruct (exists_last (l := rest)) as (middle & e & ->).
  { intros ->. simpl in Hlen. lia. }
  exists s, middle, e. split; [reflexivity|]. split; [reflexivity|].
  unfold RoutePolyline.endPoint. simpl.
  replace (length (middle ++ [e]) - 0)%nat with (S (length middle))
    by (rewrite length_app; simpl; lia).
  simpl. rewrite nth_error_app2 by lia. rewrite Nat.sub_diag. reflexivity.
Qed.

End SelectionAndViews.

(** ** Whole pushes through the pipeline *)

Section Pushes.

Import Firebase UseShuttles.

(** Normalization writes six properties and leaves every other property of
    an entry as it is. *)
Lemma normalizeEntry_other_fields (key : string) (entry rec : Obj) (k : string) :
  normalizeEntry (key, VObj entry) = Normal rec ->
  k <> "speed" -> k <> "prevLong" -> k <> "prevLat" -> k <> "longitude" ->
  k <> "latitude" -> k <> "id" ->
  rec !! k = entry !! k.
Proof.
  intros Hrec H1 H2 H3 H4 H5 H6. apply normalizeEntry_normal in Hrec. subst rec.
  do 5 (rewrite lookup_insert_ne by congruence). simpl.
  rewrite lookup_union, lookup_singleton_ne by congruence.
  destruct (entry !! k); reflexivity.
Qed.

Lemma processShuttle_other_fields (now : Z) (rec o : Obj) (k : string) :
  processShuttle now rec = Normal o ->
  k <> "routePath" -> k <> "isActive" -> o !! k = rec !! k.
Proof.
  unfold processShuttle. intros Ho H1 H2.
  destruct (isShuttleActive now rec) as [a|e]; simpl in Ho; [|discriminate].
  injection Ho as <-. do 2 (rewrite lookup_insert_ne by congruence). reflexivity.
Qed.

(** Every property of a feed entry other than the eight the pipeline
    writes ([id], the five parsed numbers, [isActive], [routePath]) reaches
    the processed shuttle unchanged: [route], [activeStatus],
    [lastActiveTime], [busNumber] and whatever else the feed sends. *)
Theorem pipeline_preserves_other_fields (now : Z) (key : string) (entry rec o : Obj)
    (k : string) :
  normalizeEntry (key, VObj entry) = Normal rec ->
  processShuttle now rec = Normal o ->
  ~ In k ["id"; "latitude"; "longitude"; "prevLat"; "prevLong"; "speed";
          "isActive"; "routePath"] ->
  o !! k = entry !! k.
Proof.
  intros Hrec Ho Hk. simpl in Hk.
  rewrite (processShuttle_other_fields _ _ _ _ Ho) by (intros ->; tauto).
  apply (normalizeEntry_other_fields _ _ _ _ Hrec); intros ->; tauto.
Qed.

Lemma mapM_member {A B} (f : A -> Completion B) (l : list A) (r : list B) (x : A) :
  mapM f l = Normal r -> In x l -> exists y, In y r /\ f x = Normal y.
Proof.
  revert r. induction l as [|x0 l IH]; simpl; intros r Hr Hx; [destruct Hx|].
  destruct (f x0) as [y0|e] eqn:Hx0; simpl in Hr; [|discriminate].
  destruct (mapM f l) as [ys|e]; simpl in Hr; [|discriminate].
  injection Hr as <-. destruct Hx as [<-|Hx].
  - exists y0. split; [left; reflexivity|exact Hx0].
  - destruct (IH ys eq_refl Hx) as (y & Hy & Hfx). exists y. split; [right|]; assumption.
Qed.

Lemma mapM_throws {A B} (f : A -> Completion B) (l : list A) (x : A) (e : string) :
  In x l -> f x = Throw e -> exists e', mapM f l = Throw e'.
Proof.
  intros Hx Hfx. destruct (mapM f l) as [r|e'] eqn:Hr; [|exists e'; reflexivity].
  destruct (mapM_member _ _ _ _ Hr Hx) as (y & _ & Hy). congruence.
Qed.


Lemma isShuttleActive_throws (now : Z) (shuttle : Obj) :
  truthy (prop shuttle "activeStatus") = true ->
  (forall s, prop shuttle "activeStatus" <> VStr s) ->
  exists e, isShuttleActive now shuttle = Throw e.
Proof.
  intros Ht Hns. unfold isShuttleActive. cbv zeta. rewrite Ht.
  destruct (prop shuttle "activeStatus") as [| |b|x|s|l|o]; simpl;
    try (eexists; reflexivity). exfalso. exact (Hns s eq_refl).
Qed.


(** One record whose [activeStatus] is truthy but not a string (a boolean
    [true], a number) makes the classifier throw inside the hook's
    callback, and the whole push is lost: no setter runs and the hook keeps
    the state it had, for every other record of the payload too. *)
Theorem deliver_drops_push_on_bad_status (now : Z) (payload : Obj) (key : string)
    (entry : Obj) (st : HookState) :
  payload !! key = Some (VObj entry) ->
  truthy (prop entry "activeStatus") = true ->
  (forall s, prop entry "activeStatus" <> VStr s) ->
  deliver now (Value (VObj payload)) st = st.
Proof.
  intros Hkey Ht Hns. unfold deliver, subscribeToShuttles, onData. simpl.
  destruct (mapM normalizeEntry (map_to_list payload)) as [arr|e] eqn:Harr;
    simpl; [|reflexivity].
  assert (Hin : In (key, VObj entry) (map_to_list payload)).
  { apply list_elem_of_In, elem_of_map_to_list. exact Hkey. }
  destruct (mapM_member _ _ _ _ Harr Hin) as (rec & Hrec & Hnorm).
  assert (Hstatus : prop rec "activeStatus" = prop entry "activeStatus").
  { unfold prop. rewrite (normalizeEntry_other_fields _ _ _ "activeStatus" Hnorm);
      [reflexivity|discriminate..]. }
  destruct (isShuttleActive_throws now rec) as [e He].
  { rewrite Hstatus. exact Ht. }
  { intros s. rewrite Hstatus. apply Hns. }
  destruct (mapM_throws (processShuttle now) arr rec e Hrec) as [e' He'].
  { unfold processShuttle. rewrite He. reflexivity. }
  rewrite He'. reflexivity.
Qed.


End Pushes.

(** ** The last-active texts of the card and of the marker *)

Section LastActiveTexts.

Import Firebase UseShuttles.

(** No text that ends in [m ago], [h ago] or [d ago] is ["Active now"] or
    empty. *)
Local Ltac walk s :=
  let H := fresh "H" in
  destruct s as [|? s]; simpl;
  [discriminate
  |intros H; first [discriminate H | injection H as _ H; revert H; walk s]].

Lemma ago_is_not_active_now (s unit_ : string) :
  In unit_ ["m ago"; "h ago"; "d ago"] -> s +:+ unit_ <> "Active now".
Proof.
  simpl. intros [<-|[<-|[<-|[]]]]; unfold not; walk s.
Qed.

Lemma ago_is_not_empty (s unit_ : string) :
  In unit_ ["m ago"; "h ago"; "d ago"] -> s +:+ unit_ <> "".
Proof.
  simpl. intros [<-|[<-|[<-|[]]]]; destruct s; discriminate.
Qed.

(** The card's text is empty, ["Active now"], ["Offline"], or a count with
    its unit, and the count is never out of the unit's range: 1 to 59
    minutes, 1 to 23 hours, 1 to 29 days. *)
Theorem getLastActiveText_forms (now : Z) (shuttle : Obj) :
  ShuttleCard.getLastActiveText now shuttle = "" \/
  ShuttleCard.getLastActiveText now shuttle = "Active now" \/
  ShuttleCard.getLastActiveText now shuttle = "Offline" \/
  (exists n, 1 <= n < 60 /\
     ShuttleCard.getLastActiveText now shuttle = digitsOf n +:+ "m ago") \/
  (exists n, 1 <= n < 24 /\
     ShuttleCard.getLastActiveText now shuttle = digitsOf n +:+ "h ago") \/
  (exists n, 1 <= n < 30 /\
     ShuttleCard.getLastActiveText now shuttle = digitsOf n +:+ "d ago").
Proof.
  unfold ShuttleCard.getLastActiveText, JsMore.diffMinutes. cbv zeta.
  destruct (_ || _); [left; reflexivity|].
  destruct (parseInt _) as [timestamp|]; [|left; reflexivity].
  destruct (TimeClip timestamp) as [lastActive|]; [|right; right; left; reflexivity].
  set (diffMins := (now - lastActive) / 60000).
  destruct (diffMins <? 0) eqn:H0; [right; left; reflexivity|].
  destruct (diffMins <? 1) eqn:H1; [right; left; reflexivity|].
  apply Z.ltb_ge in H0, H1.
  destruct (diffMins <? 60) eqn:H60.
  { apply Z.ltb_lt in H60. do 3 right. left. exists diffMins. split; [lia|reflexivity]. }
  apply Z.ltb_ge in H60.
  destruct (diffMins / 60 <? 24) eqn:H24.
  { apply Z.ltb_lt in H24. do 4 right. left. exists (diffMins / 60).
    split; [|reflexivity]. split; [|exact H24].
    apply Z.div_le_lower_bound; lia. }
  apply Z.ltb_ge in H24.
  destruct (diffMins / 60 / 24 <? 30) eqn:H30; [|right; right; left; reflexivity].
  apply Z.ltb_lt in H30. do 5 right. exists (diffMins / 60 / 24).
  split; [|reflexivity]. split; [|exact H30].
  apply Z.div_le_lower_bound; lia.
Qed.

(** A record classified inactive has no usable timestamp, or one that is
    not within five minutes of the clock reading. *)
Lemma isShuttleActive_false_stale (now : Z) (shuttle : Obj) (t : Z) :
  isShuttleActive now shuttle = Normal false ->
  truthy (prop shuttle "lastActiveTime") && notStringZero (prop shuttle "lastActiveTime")
    = true ->
  parseInt (prop shuttle "lastActiveTime") = Some t ->
  withinFiveMinutes now t = false.
Proof.
  unfold isShuttleActive. cbv zeta. intros H Hguard Hparse.
  destruct (if truthy (prop shuttle "activeStatus") then _ else _) as [b|e];
    simpl in H; [|discriminate].
  destruct b; [discriminate|]. rewrite Hguard, Hparse in H. injection H as H. exact H.
Qed.

Lemma getLastActiveText_stale (now : Z) (shuttle : Obj) :
  (forall t,
     truthy (prop shuttle "lastActiveTime") && notStringZero (prop shuttle "lastActiveTime")
       = true ->
     parseInt (prop shuttle "lastActiveTime") = Some t ->
     withinFiveMinutes now t = false) ->
  ShuttleCard.getLastActiveText now shuttle <> "Active now".
Proof.
  intros Hstale. unfold ShuttleCard.getLastActiveText, JsMore.diffMinutes. cbv zeta.
  rewrite <- negb_andb.
  destruct (_ && _) eqn:Hguard; simpl; [|discriminate].
  destruct (parseInt _) as [t|] eqn:Hparse; [|discriminate].
  specialize (Hstale t eq_refl eq_refl). unfold withinFiveMinutes in Hstale.
  destruct (TimeClip t) as [lastActive|]; [|discriminate].
  apply Z.ltb_ge in Hstale. unfold fiveMinutes in Hstale.
  assert (Hmins : 5 <= (now - lastActive) / 60000)
    by (apply Z.div_le_lower_bound; lia).
  set (diffMins := (now - lastActive) / 60000) in *.
  replace (diffMins <? 0) with false by (symmetry; apply Z.ltb_ge; lia).
  replace (diffMins <? 1) with false by (symmetry; apply Z.ltb_ge; lia).
  destruct (diffMins <? 60); [apply ago_is_not_active_now; simpl; tauto|].
  destruct (diffMins / 60 <? 24); [apply ago_is_not_active_now; simpl; tauto|].
  destruct (diffMins / 60 / 24 <? 30); [apply ago_is_not_active_now; simpl; tauto|].
  discriminate.
Qed.

(** The card never shows ["Active now"] as the last-active line of a
    shuttle: the line is shown only for a shuttle the hook classified
    inactive, whose timestamp was then at least five minutes old and is no
    younger when the card is rendered, at the same or a later clock
    reading. *)
Theorem card_never_says_active_now (now now' : Z) (rec o : Obj) :
  now <= now' ->
  processShuttle now rec = Normal o ->
  ShuttleCard.lastActiveLine now' o <> Some "Active now".
Proof.
  intros Hclock Ho. unfold ShuttleCard.lastActiveLine.
  assert (Htime : prop o "lastActiveTime" = prop rec "lastActiveTime").
  { unfold prop. rewrite (processShuttle_other_fields _ _ _ "lastActiveTime" Ho);
      [reflexivity|discriminate..]. }
  unfold processShuttle in Ho.
  destruct (isShuttleActive now rec) as [a|e] eqn:Hactive; simpl in Ho; [|discriminate].
  injection Ho as Ho.
  assert (Hflag : prop o "isActive" = VBool a).
  { subst o. unfold prop. rewrite lookup_insert_ne by discriminate.
    rewrite lookup_insert_eq. reflexivity. }
  rewrite Hflag. destruct a; simpl; [discriminate|].
  intros Hline. injection Hline as Hline. revert Hline.
  apply getLastActiveText_stale. rewrite Htime. intros t Hguard Hparse.
  pose proof (isShuttleActive_false_stale now rec t Hactive Hguard Hparse) as Hstale.
  destruct (withinFiveMinutes now' t) eqn:Hnow'; [|reflexivity].
  rewrite (withinFiveMinutes_monotone now' now t Hclock Hnow') in Hstale. discriminate.
Qed.

(** The card and the marker's popup read the timestamp alike: whenever the
    card's text is ["Active now"] the popup's is ["Just now"], and whenever
    the card's text is empty the popup's is ["Unknown"], on every host and
    at every clock reading. *)
Theorem card_and_marker_agree (toLocaleDateString : Z -> string) (now : Z)
    (shuttle : Obj) :
  (ShuttleCard.getLastActiveText now shuttle = "Active now" ->
   ShuttleMarker.formatLastActive toLocaleDateString now shuttle = "Just now") /\
  (ShuttleCard.getLastActiveText now shuttle = "" ->
   ShuttleMarker.formatLastActive toLocaleDateString now shuttle = "Unknown").
Proof.
  unfold ShuttleCard.getLastActiveText, ShuttleMarker.formatLastActive. cbv zeta.
  destruct (_ || _); [split; [discriminate|reflexivity]|].
  destruct (parseInt _) as [timestamp|]; [|split; [discriminate|reflexivity]].
  destruct (JsMore.diffMinutes now timestamp) as [diffMins|];
    [|split; discriminate].
  destruct (diffMins <? 0); [split; [reflexivity|discriminate]|].
  destruct (diffMins <? 1); [split; [reflexivity|discriminate]|].
  destruct (diffMins <? 60).
  { split; intros H; exfalso; revert H;
      [apply ago_is_not_active_now|apply ago_is_not_empty]; simpl; tauto. }
  destruct (diffMins / 60 <? 24).
  { split; intros H; exfalso; revert H;
      [apply ago_is_not_active_now|apply ago_is_not_empty]; simpl; tauto. }
  destruct (diffMins / 60 / 24 <? 30).
  { split; intros H; exfalso; revert H;
      [apply ago_is_not_active_now|apply ago_is_not_empty]; simpl; tauto. }
  split; discriminate.
Qed.

End LastActiveTexts.

(** ** The sorted list of the status panel *)

Section Panel.

Import StatusPanel JsMore.










End Panel.

(** ** The component theorems at concrete inputs *)

Section ComponentInstances.

Import Firebase UseShuttles App.

(** The sort of the panel on four shuttles: the active ones by bus number,
    then the inactive ones by bus number, a shuttle without a number
    counting as 0. *)
Example scenario_sorted_panel :
  let shuttle (i : string) (a : bool) (n : JsVal) : Obj :=
    {[ "id" := VStr i; "isActive" := VBool a; "busNumber" := n ]} in
  (fun s => prop s "id") <$>
    StatusPanel.sortedShuttles
      [shuttle "a" false (VStr "3"); shuttle "b" true (VStr "12");
       shuttle "c" false VUndefined; shuttle "d" true (VStr "7")]
  = [VStr "d"; VStr "b"; VStr "c"; VStr "a"].
Proof. vm_compute. reflexivity. Qed.

(** The lookup theorem at a snapshot of two candidates and an inactive
    shuttle, on the reference host. *)
Lemma selectedShuttle_after_search_witness :
  let shuttles :=
    [ {| id := "s1"; latitude := 33.6515; longitude := 72.9930; isActive := true |};
      {| id := "s2"; latitude := 33.6470; longitude := 72.9930; isActive := true |};
      {| id := "s3"; latitude := 33.6425; longitude := 72.9930; isActive := false |} ] in
  List.NoDup (map id shuttles) /\
  (exists c, In c (candidates shuttles) /\
             (distanceTo RefMath.host 33.6425 72.9930 c <? infinity)%float = true) /\
  exists w,
    Spec.firstMinimum (distanceTo RefMath.host 33.6425 72.9930) (candidates shuttles) w /\
    MapView.selectedShuttle shuttles
      (selectedShuttleId
         (fst (findNearestActive RefMath.host shuttles (Position 33.6425 72.9930)
                 initialState)))
    = Some w.
Proof.
  cbv zeta.
  refine ((fun H1 H2 => conj H1 (conj H2
            (selectedShuttle_after_search RefMath.host _ _ _ initialState H1 H2))) _ _).
  - simpl. repeat constructor; simpl; intuition discriminate.
  - eexists. split; [left; reflexivity|vm_compute; reflexivity].
Defined.

(** The marker theorem at a shuttle on the Greenwich meridian. *)
Lemma marker_renders_iff_hasPosition_witness :
  let o : Obj := {[ "id" := VStr "s1"; "latitude" := VNum 33.64; "longitude" := VNum 0;
                    "isActive" := VBool true ]} in
  let s := {| id := "s1"; latitude := 33.64; longitude := 0; isActive := true |} in
  viewShuttle o = Some s /\
  ShuttleMarker.renders o = hasPosition s /\
  hasPosition s = false.
Proof.
  cbv zeta.
  refine ((fun H => conj H (conj (marker_renders_iff_hasPosition _ _ H) _)) _).
  - reflexivity.
  - vm_compute. reflexivity.
Defined.

(** The end point theorem at a path of three pairs. *)
Lemma RoutePolyline_endpoints_witness :
  let path := [(33.64, 72.98); (33.65, 72.99); (33.66, 73)]%float in
  MapComponents.RoutePolyline_draws path = true /\
  exists s middle e,
    path = s :: middle ++ [e] /\
    RoutePolyline.startPoint path = Some s /\
    RoutePolyline.endPoint path = Some e.
Proof.
  cbv zeta. refine ((fun H => conj H (RoutePolyline_endpoints _ H)) _). reflexivity.
Defined.

(** The pass-through theorem at the [busNumber] of an entry. *)
Lemma pipeline_preserves_other_fields_witness :
  let entry : Obj := {[ "latitude" := VStr "33.64"; "busNumber" := VStr "7";
                        "activeStatus" := VStr "active" ]} in
  exists rec o,
    normalizeEntry ("s1", VObj entry) = Normal rec /\
    processShuttle 1700000000000 rec = Normal o /\
    ~ In "busNumber" ["id"; "latitude"; "longitude"; "prevLat"; "prevLong"; "speed";
                      "isActive"; "routePath"] /\
    o !! "busNumber" = entry !! "busNumber".
Proof.
  cbv zeta. eexists. eexists.
  split; [reflexivity|]. split; [vm_compute; reflexivity|].
  refine ((fun H => conj H
            (pipeline_preserves_other_fields 1700000000000 "s1" _ _ _ "busNumber"
               eq_refl _ H)) _).
  - vm_compute. reflexivity.
  - simpl. intuition discriminate.
Defined.

(** The lost push theorem at a payload whose second record has the
    boolean [true] as its status. *)
Lemma deliver_drops_push_on_bad_status_witness :
  let entry : Obj := {[ "latitude" := VStr "33.65"; "activeStatus" := VBool true ]} in
  let payload : Obj :=
    {[ "s1" := VObj {[ "latitude" := VStr "33.64"; "activeStatus" := VStr "active" ]};
       "s2" := VObj entry ]} in
  payload !! "s2" = Some (VObj entry) /\
  truthy (prop entry "activeStatus") = true /\
  (forall s, prop entry "activeStatus" <> VStr s) /\
  deliver 1700000000000 (Value (VObj payload)) UseShuttles.initialState
    = UseShuttles.initialState.
Proof.
  cbv zeta.
  refine ((fun H1 H2 H3 => conj H1 (conj H2 (conj H3
            (deliver_drops_push_on_bad_status 1700000000000 _ "s2" _
               UseShuttles.initialState H1 H2 H3)))) _ _ _).
  - vm_compute. reflexivity.
  - vm_compute. reflexivity.
  - intros s. vm_compute. discriminate.
Defined.


(** The card theorem at a record last seen ten minutes before the push
    and rendered a minute after it. *)
Lemma card_never_says_active_now_witness :
  let rec : Obj := {[ "id" := VStr "s1"; "lastActiveTime" := VStr "1700000000000" ]} in
  exists o,
    1700000600000 <= 1700000660000 /\
    processShuttle 1700000600000 rec = Normal o /\
    ShuttleCard.lastActiveLine 1700000660000 o <> Some "Active now" /\
    ShuttleCard.lastActiveLine 1700000660000 o = Some "11m ago".
Proof.
  cbv zeta. eexists.
  split; [lia|]. split; [vm_compute; reflexivity|].
  split; [|vm_compute; reflexivity].
  apply (card_never_says_active_now 1700000600000 1700000660000
           {[ "id" := VStr "s1"; "lastActiveTime" := VStr "1700000000000" ]}).
  - lia.
  - vm_compute. reflexivity.
Defined.

End ComponentInstances.
